(** * lupos.vscode: the language-service decoration layer

    A shallow embedding of
    - [packages/lupos-server/src/shared-services/decorator.ts]
      (class [TSLanguageServiceProxy]) and
    - [LuposCompletion.makeCompletionInfo] of the lupos completion service,
    together with the properties the specification states about them.

    Conventions of the embedding.
    - Offsets are JavaScript numbers holding integers; they are modelled in [Z].
    - The host language service and the template language service are
      external code.  They run against an abstract world [W] (documents,
      program, caches) that every call may read and change.  Each call that
      crosses into external code is appended to a call log kept next to the
      world, so that "is invoked" and "is never consulted" are statements
      about that log.
    - The source rewrites offsets in place on the objects a handler has just
      returned ([textSpan.start = ...]).  A handler result is modelled as a
      value and the write as a functional update of that value, with the
      field written and every other field copied. *)

From Stdlib Require Import ZArith String List DecimalString.
From stdpp Require Import base gmap sets list strings.

Open Scope Z_scope.

(** ** Payloads of the host API *)

(** Parts of a payload that the decoration layer only hands on: option bags,
    display parts, definition lists and the like. *)
Inductive JsValue : Type :=
| JsUndefined
| JsNumber (n : Z)
| JsString (s : string)
| JsObject (json : string).

(** [TS.ScriptElementKind] is a string enum. *)
Definition ScriptElementKind : Type := string.

Module TextSpan.
Record t : Type := { start : Z; length : Z }.
End TextSpan.

Module CompletionEntry.
Record t : Type := {
  name : string;
  kind : ScriptElementKind;
  sortText : string;
  insertText : option string;
  replacementSpan : option TextSpan.t
}.
End CompletionEntry.

Module CompletionInfo.
Record t : Type := {
  isGlobalCompletion : bool;
  isMemberCompletion : bool;
  isNewIdentifierLocation : bool;
  entries : list CompletionEntry.t
}.
End CompletionInfo.

Module QuickInfo.
Record t : Type := {
  kind : ScriptElementKind;
  kindModifiers : string;
  textSpan : option TextSpan.t;
  displayParts : JsValue;
  documentation : JsValue
}.
End QuickInfo.

(** [diagnostic.start!]: the source asserts that the offset is present. *)
Module Diagnostic.
Record t : Type := {
  start : Z;
  length : Z;
  code : Z;
  messageText : string
}.
End Diagnostic.

Module TextChange.
Record t : Type := { span : option TextSpan.t; newText : string }.
End TextChange.

Module FileTextChanges.
Record t : Type := { fileName : string; textChanges : list TextChange.t }.
End FileTextChanges.

Module CodeFixAction.
Record t : Type := {
  fixName : string;
  description : string;
  changes : list FileTextChanges.t
}.
End CodeFixAction.

Module SignatureHelpItems.
Record t : Type := {
  items : JsValue;
  applicableSpan : option TextSpan.t;
  selectedItemIndex : Z;
  argumentIndex : Z;
  argumentCount : Z
}.
End SignatureHelpItems.

Module OutliningSpan.
Record t : Type := {
  textSpan : option TextSpan.t;
  hintSpan : option TextSpan.t;
  bannerText : string;
  autoCollapse : bool;
  kind : string
}.
End OutliningSpan.

Module ReferencedSymbolDefinitionInfo.
Record t : Type := {
  fileName : string;
  textSpan : option TextSpan.t;
  name : string;
  displayParts : JsValue
}.
End ReferencedSymbolDefinitionInfo.

Module ReferencedSymbol.
Record t : Type := {
  definition : ReferencedSymbolDefinitionInfo.t;
  references : JsValue
}.
End ReferencedSymbol.

(** ** Template: the position model *)

Module Template.

Record t : Type := { start : Z; end_ : Z }.

(** Modelled from the spec: the class [Template] of [../template-service] is
    not part of the sources at hand.  "globalToLocal(o) = o - start". *)
Definition globalOffsetToLocal (template : t) (o : Z) : Z := o - start template.

(** Modelled from the spec: "localToGlobal(o) = o + start". *)
Definition localOffsetToGlobal (template : t) (o : Z) : Z := o + start template.

(** Modelled from the spec: "intersectWith(s, e): true iff [s,e) overlaps
    [start,end)", that is, iff the two half-open ranges share an offset. *)
Definition intersectWith (template : t) (s e : Z) : bool :=
  Z.max s (start template) <? Z.min e (end_ template).

(** Modelled from the spec: a Template contains a global offset when the
    offset lies in its range [start,end). *)
Definition contains (template : t) (o : Z) : bool :=
  (start template <=? o) && (o <? end_ template).

End Template.

(** ** Keys of the host language service

    [keyof TS.LanguageService]: the thirteen operations this layer can wrap,
    and every other operation of the host by its name. *)

Module Key.

Inductive t : Type :=
| getCompletionsAtPosition
| getCompletionEntryDetails
| getQuickInfoAtPosition
| getDefinitionAtPosition
| getDefinitionAndBoundSpan
| getSyntacticDiagnostics
| getSemanticDiagnostics
| getFormattingEditsForRange
| getCodeFixesAtPosition
| getSignatureHelpItems
| getOutliningSpans
| findReferences
| getJsxClosingTagAtPosition
| other (name : string).

Definition eq_dec (a b : t) : {a = b} + {a <> b}.
Proof. decide equality. apply String.string_dec. Defined.

End Key.

#[global] Instance Key_eq_decision : EqDecision Key.t := Key.eq_dec.

(** The parameters a wrapper declares for each operation.  A host operation
    may take more; [decorate] forwards the whole argument vector. *)
Definition ParamsOf (k : Key.t) : Type :=
  match k with
  | Key.getCompletionsAtPosition => string * Z * JsValue
  | Key.getCompletionEntryDetails => string * Z * string * JsValue
  | Key.getQuickInfoAtPosition => string * Z
  | Key.getDefinitionAtPosition => string * Z
  | Key.getDefinitionAndBoundSpan => string * Z
  | Key.getSyntacticDiagnostics => string
  | Key.getSemanticDiagnostics => string
  | Key.getFormattingEditsForRange => string * Z * Z * JsValue
  | Key.getCodeFixesAtPosition => string * Z * Z * list Z * JsValue * JsValue
  | Key.getSignatureHelpItems => string * Z * JsValue
  | Key.getOutliningSpans => string
  | Key.findReferences => string * Z
  | Key.getJsxClosingTagAtPosition => string * Z
  | Key.other _ => unit
  end%type.

(** [...args]: the declared parameters and the trailing arguments. *)
Definition ArgsOf (k : Key.t) : Type := (ParamsOf k * list JsValue)%type.

(** The result type of each operation, [undefined] being [None]. *)
Definition ResOf (k : Key.t) : Type :=
  match k with
  | Key.getCompletionsAtPosition => option CompletionInfo.t
  | Key.getCompletionEntryDetails => option JsValue
  | Key.getQuickInfoAtPosition => option QuickInfo.t
  | Key.getDefinitionAtPosition => option JsValue
  | Key.getDefinitionAndBoundSpan => option JsValue
  | Key.getSyntacticDiagnostics => list Diagnostic.t
  | Key.getSemanticDiagnostics => list Diagnostic.t
  | Key.getFormattingEditsForRange => list TextChange.t
  | Key.getCodeFixesAtPosition => list CodeFixAction.t
  | Key.getSignatureHelpItems => option SignatureHelpItems.t
  | Key.getOutliningSpans => list OutliningSpan.t
  | Key.findReferences => option (list ReferencedSymbol.t)
  | Key.getJsxClosingTagAtPosition => option JsValue
  | Key.other _ => JsValue
  end.

(** ** External calls: world, call log and the monad threading them *)

Inductive Call : Type :=
| HostCall (k : Key.t)
| TemplateCall (hook : string) (template : Template.t) (localOffsets : list Z)
| TemplateRegistryCall.

Record State (W : Type) : Type := mkState { world : W; calls : list Call }.
Arguments mkState {W} _ _.
Arguments world {W} _.
Arguments calls {W} _.

Definition M (W A : Type) : Type := State W -> A * State W.

Definition ret {W A : Type} (a : A) : M W A := fun st => (a, st).

Definition bind {W A B : Type} (m : M W A) (f : A -> M W B) : M W B :=
  fun st => let '(a, st') := m st in f a st'.

Notation "'let*' x ':=' m 'in' k" := (bind m (fun x => k))
  (at level 10, x name, m at level 100, k at level 200).

(** Run external code [f] on the world and log the call [c]. *)
Definition invoke {W A : Type} (c : Call) (f : W -> A * W) : M W A :=
  fun st =>
    let '(a, w) := f (world st) in
    (a, mkState w (calls st ++ [c])).

(** [for (let x of xs) { ... }] over an accumulator. *)
Fixpoint forOf {W A S : Type} (xs : list A) (acc : S) (body : S -> A -> M W S)
  : M W S :=
  match xs with
  | [] => ret acc
  | x :: rest => let* acc' := body acc x in forOf rest acc' body
  end.

(** ** The template language service

    [TemplateLanguageService]: the hooks mirror the host operations, keyed by
    a Template and local offsets; each hook may be left unimplemented. *)

Module TemplateLanguageService.
Record t (W : Type) : Type := {
  getCompletionsAtPosition :
    option (Template.t -> Z -> JsValue -> W -> option CompletionInfo.t * W);
  getCompletionEntryDetails :
    option (Template.t -> Z -> string -> JsValue -> W -> option JsValue * W);
  getQuickInfoAtPosition :
    option (Template.t -> Z -> W -> option QuickInfo.t * W);
  getDefinitionAtPosition :
    option (Template.t -> Z -> W -> option JsValue * W);
  getDefinitionAndBoundSpan :
    option (Template.t -> Z -> W -> option JsValue * W);
  getSyntacticDiagnostics :
    option (Template.t -> W -> list Diagnostic.t * W);
  getSemanticDiagnostics :
    option (Template.t -> W -> list Diagnostic.t * W);
  getFormattingEditsForRange :
    option (Template.t -> Z -> Z -> JsValue -> W -> list TextChange.t * W);
  getCodeFixesAtPosition :
    option (Template.t -> Z -> Z -> list Z -> JsValue -> JsValue -> W ->
            list CodeFixAction.t * W);
  getSupportedCodeFixes :
    option (W -> list Z * W);
  getSignatureHelpItemsAtPosition :
    option (Template.t -> Z -> JsValue -> W -> option SignatureHelpItems.t * W);
  getOutliningSpans :
    option (Template.t -> W -> list OutliningSpan.t * W);
  getReferencesAtPosition :
    option (Template.t -> Z -> W -> option (list ReferencedSymbol.t) * W);
  getJsxClosingTagAtPosition :
    option (Template.t -> Z -> W -> option JsValue * W)
}.
Arguments getCompletionsAtPosition {W} _.
Arguments getCompletionEntryDetails {W} _.
Arguments getQuickInfoAtPosition {W} _.
Arguments getDefinitionAtPosition {W} _.
Arguments getDefinitionAndBoundSpan {W} _.
Arguments getSyntacticDiagnostics {W} _.
Arguments getSemanticDiagnostics {W} _.
Arguments getFormattingEditsForRange {W} _.
Arguments getCodeFixesAtPosition {W} _.
Arguments getSupportedCodeFixes {W} _.
Arguments getSignatureHelpItemsAtPosition {W} _.
Arguments getOutliningSpans {W} _.
Arguments getReferencesAtPosition {W} _.
Arguments getJsxClosingTagAtPosition {W} _.
End TemplateLanguageService.

(** The [ts] module object, as far as this layer touches it: the process-wide
    enumeration of supported fix codes. *)
Module ts.
Record t (W : Type) : Type := { getSupportedCodeFixes : M W (list string) }.
Arguments getSupportedCodeFixes {W} _.
End ts.

(** [String(x)] on an integer: its decimal numeral. *)
Definition StringOf (x : Z) : string := NilZero.string_of_int (Z.to_int x).

(** ** The proxy *)

Section Proxy.

Context {W : Type}.

(** The host service object: every property is a function of the host. *)
Definition LanguageService : Type := forall k : Key.t, ArgsOf k -> W -> ResOf k * W.

Record ProjectContext : Type := { service : LanguageService }.

(** Calling a function of the host object. *)
Definition callHost (target : LanguageService) (k : Key.t) (args : ArgsOf k)
  : M W (ResOf k) :=
  invoke (HostCall k) (target k args).

(** Modelled from the spec: the class [TemplateProvider] is not part of the
    sources at hand.  It holds, for the current content of each document,
    the Templates of that document in ascending order. *)
Record TemplateProvider : Type := { templates : W -> string -> list Template.t }.

(** Modelled from the spec: "findAllTemplates(document): ordered, finite
    sequence of Template". *)
Definition getAllTemplates (provider : TemplateProvider) (fileName : string)
  : M W (list Template.t) :=
  fun st => (templates provider (world st) fileName, st).

(** Modelled from the spec: "findTemplateAt(document, globalOffset): the
    unique Template whose [start,end) contains globalOffset", none when there
    is no such Template. *)
Definition templateAt (provider : TemplateProvider) (w : W) (fileName : string)
  (gloOffset : Z) : option Template.t :=
  find (fun template => Template.contains template gloOffset)
       (templates provider w fileName).

Definition getTemplateAt (provider : TemplateProvider) (fileName : string)
  (gloOffset : Z) : M W (option Template.t) :=
  fun st => (templateAt provider (world st) fileName gloOffset, st).

(** [LanguageServiceWrapper<K>]: from [(A, B) => C] to [(D: () => C, A, B) => C]. *)
Definition LanguageServiceWrapper (k : Key.t) : Type :=
  M W (ResOf k) -> ArgsOf k -> M W (ResOf k).

Record WrapperEntry : Type := {
  name : Key.t;
  wrapper : LanguageServiceWrapper name
}.

Record TSLanguageServiceProxy : Type := {
  context : ProjectContext;
  templateService : TemplateLanguageService.t W;
  templateProvider : TemplateProvider;
  wrappers : list WrapperEntry
}.

(** Wrap with a interpolated service function: [this.wrappers.push(...)]. *)
Definition wrap (this : TSLanguageServiceProxy) (k : Key.t)
  (w : LanguageServiceWrapper k) : TSLanguageServiceProxy :=
  {| context := context this;
     templateService := templateService this;
     templateProvider := templateProvider this;
     wrappers := wrappers this ++ [ {| name := k; wrapper := w |} ] |}.

(** From template origin to global origin.  The span, when there is one, gets
    a new [start]; the value returned is the span as it is after the call. *)
Definition translateTextSpan (textSpan : option TextSpan.t) (template : Template.t)
  : option TextSpan.t :=
  match textSpan with
  | Some span =>
      Some {| TextSpan.start :=
                Template.localOffsetToGlobal template (TextSpan.start span);
              TextSpan.length := TextSpan.length span |}
  | None => None
  end.

(** *** getCompletionsAtPosition *)

(** [entry => this.translateTextSpan(entry.replacementSpan, template)] *)
Definition translateCompletionEntry (template : Template.t)
  (entry : CompletionEntry.t) : CompletionEntry.t :=
  {| CompletionEntry.name := CompletionEntry.name entry;
     CompletionEntry.kind := CompletionEntry.kind entry;
     CompletionEntry.sortText := CompletionEntry.sortText entry;
     CompletionEntry.insertText := CompletionEntry.insertText entry;
     CompletionEntry.replacementSpan :=
       translateTextSpan (CompletionEntry.replacementSpan entry) template |}.

(** [info.entries.forEach(...)] *)
Definition translateCompletionInfo (template : Template.t)
  (info : CompletionInfo.t) : CompletionInfo.t :=
  {| CompletionInfo.isGlobalCompletion := CompletionInfo.isGlobalCompletion info;
     CompletionInfo.isMemberCompletion := CompletionInfo.isMemberCompletion info;
     CompletionInfo.isNewIdentifierLocation :=
       CompletionInfo.isNewIdentifierLocation info;
     CompletionInfo.entries :=
       map (translateCompletionEntry template) (CompletionInfo.entries info) |}.

(** The function [wrapGetCompletionsAtPosition] registers.  [h] is the hook
    the source reaches through [this.templateService.getCompletionsAtPosition!]. *)
Definition getCompletionsAtPosition_wrapper (this : TSLanguageServiceProxy)
  (h : Template.t -> Z -> JsValue -> W -> option CompletionInfo.t * W)
  : LanguageServiceWrapper Key.getCompletionsAtPosition :=
  fun callOriginal '((fileName, gloOffset, options), _) =>
    let* template := getTemplateAt (templateProvider this) fileName gloOffset in
    match template with
    | None => callOriginal
    | Some template =>
        (* Replace with lupos template completion. *)
        match TemplateLanguageService.getCompletionsAtPosition (templateService this) with
        | Some _ =>
            let temOffset := Template.globalOffsetToLocal template gloOffset in
            let* info :=
              invoke (TemplateCall "getCompletionsAtPosition" template [temOffset])
                     (h template temOffset options) in
            ret (match info with
                 | Some info => Some (translateCompletionInfo template info)
                 | None => None
                 end)
        | None =>
            (* No original completion. *)
            ret None
        end
    end.

Definition wrapGetCompletionsAtPosition (this : TSLanguageServiceProxy)
  : TSLanguageServiceProxy :=
  match TemplateLanguageService.getCompletionsAtPosition (templateService this) with
  | None => this
  | Some h =>
      wrap this Key.getCompletionsAtPosition (getCompletionsAtPosition_wrapper this h)
  end.

(** *** getCompletionEntryDetails *)

Definition getCompletionEntryDetails_wrapper (this : TSLanguageServiceProxy)
  (h : Template.t -> Z -> string -> JsValue -> W -> option JsValue * W)
  : LanguageServiceWrapper Key.getCompletionEntryDetails :=
  fun callOriginal '((fileName, gloOffset, name, options), _) =>
    let* template := getTemplateAt (templateProvider this) fileName gloOffset in
    match template with
    | None => callOriginal
    | Some template =>
        match TemplateLanguageService.getCompletionEntryDetails (templateService this) with
        | Some _ =>
            let temOffset := Template.globalOffsetToLocal template gloOffset in
            let* entry :=
              invoke (TemplateCall "getCompletionEntryDetails" template [temOffset])
                     (h template temOffset name options) in
            ret entry
        | None => ret None
        end
    end.

Definition wrapGetCompletionEntryDetails (this : TSLanguageServiceProxy)
  : TSLanguageServiceProxy :=
  match TemplateLanguageService.getCompletionEntryDetails (templateService this) with
  | None => this
  | Some h =>
      wrap this Key.getCompletionEntryDetails (getCompletionEntryDetails_wrapper this h)
  end.

(** *** getQuickInfoAtPosition *)

(** [this.translateTextSpan(info.textSpan, template)] *)
Definition translateQuickInfo (template : Template.t) (info : QuickInfo.t)
  : QuickInfo.t :=
  {| QuickInfo.kind := QuickInfo.kind info;
     QuickInfo.kindModifiers := QuickInfo.kindModifiers info;
     QuickInfo.textSpan := translateTextSpan (QuickInfo.textSpan info) template;
     QuickInfo.displayParts := QuickInfo.displayParts info;
     QuickInfo.documentation := QuickInfo.documentation info |}.

(** The guard inside the function reads the [getCompletionEntryDetails] hook,
    as the source does. *)
Definition getQuickInfoAtPosition_wrapper (this : TSLanguageServiceProxy)
  (h : Template.t -> Z -> W -> option QuickInfo.t * W)
  : LanguageServiceWrapper Key.getQuickInfoAtPosition :=
  fun callOriginal '((fileName, gloOffset), _) =>
    let* template := getTemplateAt (templateProvider this) fileName gloOffset in
    match template with
    | None => callOriginal
    | Some template =>
        match TemplateLanguageService.getCompletionEntryDetails (templateService this) with
        | Some _ =>
            let temOffset := Template.globalOffsetToLocal template gloOffset in
            let* info :=
              invoke (TemplateCall "getQuickInfoAtPosition" template [temOffset])
                     (h template temOffset) in
            ret (match info with
                 | Some info => Some (translateQuickInfo template info)
                 | None => None
                 end)
        | None => ret None
        end
    end.

Definition wrapGetQuickInfoAtPosition (this : TSLanguageServiceProxy)
  : TSLanguageServiceProxy :=
  match TemplateLanguageService.getQuickInfoAtPosition (templateService this) with
  | None => this
  | Some h =>
      wrap this Key.getQuickInfoAtPosition (getQuickInfoAtPosition_wrapper this h)
  end.

(** *** getDefinitionAtPosition, getDefinitionAndBoundSpan *)

Definition getDefinitionAtPosition_wrapper (this : TSLanguageServiceProxy)
  (h : Template.t -> Z -> W -> option JsValue * W)
  : LanguageServiceWrapper Key.getDefinitionAtPosition :=
  fun callOriginal '((fileName, gloOffset), _) =>
    let* template := getTemplateAt (templateProvider this) fileName gloOffset in
    match template with
    | None => callOriginal
    | Some template =>
        (* Replace with template definitions. *)
        let temOffset := Template.globalOffsetToLocal template gloOffset in
        let* definitions :=
          invoke (TemplateCall "getDefinitionAtPosition" template [temOffset])
                 (h template temOffset) in
        ret definitions
    end.

Definition wrapGetDefinitionAtPosition (this : TSLanguageServiceProxy)
  : TSLanguageServiceProxy :=
  match TemplateLanguageService.getDefinitionAtPosition (templateService this) with
  | None => this
  | Some h =>
      wrap this Key.getDefinitionAtPosition (getDefinitionAtPosition_wrapper this h)
  end.

Definition getDefinitionAndBoundSpan_wrapper (this : TSLanguageServiceProxy)
  (h : Template.t -> Z -> W -> option JsValue * W)
  : LanguageServiceWrapper Key.getDefinitionAndBoundSpan :=
  fun callOriginal '((fileName, gloOffset), _) =>
    let* template := getTemplateAt (templateProvider this) fileName gloOffset in
    match template with
    | None => callOriginal
    | Some template =>
        let temOffset := Template.globalOffsetToLocal template gloOffset in
        let* definitionAndSpan :=
          invoke (TemplateCall "getDefinitionAndBoundSpan" template [temOffset])
                 (h template temOffset) in
        ret definitionAndSpan
    end.

Definition wrapGetDefinitionAndBoundSpan (this : TSLanguageServiceProxy)
  : TSLanguageServiceProxy :=
  match TemplateLanguageService.getDefinitionAndBoundSpan (templateService this) with
  | None => this
  | Some h =>
      wrap this Key.getDefinitionAndBoundSpan (getDefinitionAndBoundSpan_wrapper this h)
  end.

(** *** getSyntacticDiagnostics, getSemanticDiagnostics *)

(** [diagnostic.start = template.localOffsetToGlobal(diagnostic.start!)] *)
Definition translateDiagnostic (template : Template.t) (diagnostic : Diagnostic.t)
  : Diagnostic.t :=
  {| Diagnostic.start :=
       Template.localOffsetToGlobal template (Diagnostic.start diagnostic);
     Diagnostic.length := Diagnostic.length diagnostic;
     Diagnostic.code := Diagnostic.code diagnostic;
     Diagnostic.messageText := Diagnostic.messageText diagnostic |}.

(** The loop body ends in [diagnostics.push(...diagnostics)]: the accumulator
    is spread into itself, the translated [subDiagnostics] are not used. *)
Definition getSyntacticDiagnostics_wrapper (this : TSLanguageServiceProxy)
  (h : Template.t -> W -> list Diagnostic.t * W)
  : LanguageServiceWrapper Key.getSyntacticDiagnostics :=
  fun callOriginal '(fileName, _) =>
    let diagnostics : list Diagnostic.t := [] in
    let* allTemplates := getAllTemplates (templateProvider this) fileName in
    let* diagnostics :=
      forOf allTemplates diagnostics (fun diagnostics template =>
        let* subDiagnostics :=
          invoke (TemplateCall "getSyntacticDiagnostics" template []) (h template) in
        let subDiagnostics := map (translateDiagnostic template) subDiagnostics in
        ret (diagnostics ++ diagnostics)) in
    (* Merge original diagnostics with template ones. *)
    let* original := callOriginal in
    ret (original ++ diagnostics).

Definition wrapGetSyntacticDiagnostics (this : TSLanguageServiceProxy)
  : TSLanguageServiceProxy :=
  match TemplateLanguageService.getSyntacticDiagnostics (templateService this) with
  | None => this
  | Some h =>
      wrap this Key.getSyntacticDiagnostics (getSyntacticDiagnostics_wrapper this h)
  end.

Definition getSemanticDiagnostics_wrapper (this : TSLanguageServiceProxy)
  (h : Template.t -> W -> list Diagnostic.t * W)
  : LanguageServiceWrapper Key.getSemanticDiagnostics :=
  fun callOriginal '(fileName, _) =>
    let diagnostics : list Diagnostic.t := [] in
    let* allTemplates := getAllTemplates (templateProvider this) fileName in
    let* diagnostics :=
      forOf allTemplates diagnostics (fun diagnostics template =>
        let* subDiagnostics :=
          invoke (TemplateCall "getSemanticDiagnostics" template []) (h template) in
        let subDiagnostics := map (translateDiagnostic template) subDiagnostics in
        ret (diagnostics ++ subDiagnostics)) in
    (* Merge original diagnostics with template ones. *)
    let* original := callOriginal in
    ret (original ++ diagnostics).

Definition wrapGetSemanticDiagnostics (this : TSLanguageServiceProxy)
  : TSLanguageServiceProxy :=
  match TemplateLanguageService.getSemanticDiagnostics (templateService this) with
  | None => this
  | Some h =>
      wrap this Key.getSemanticDiagnostics (getSemanticDiagnostics_wrapper this h)
  end.

(** *** getFormattingEditsForRange *)

(** [this.translateTextSpan(change.span, template)] *)
Definition translateTextChange (template : Template.t) (change : TextChange.t)
  : TextChange.t :=
  {| TextChange.span := translateTextSpan (TextChange.span change) template;
     TextChange.newText := TextChange.newText change |}.

Definition getFormattingEditsForRange_wrapper (this : TSLanguageServiceProxy)
  (h : Template.t -> Z -> Z -> JsValue -> W -> list TextChange.t * W)
  : LanguageServiceWrapper Key.getFormattingEditsForRange :=
  fun callOriginal '((fileName, gloStart, gloEnd, options), _) =>
    let changes : list TextChange.t := [] in
    let* allTemplates := getAllTemplates (templateProvider this) fileName in
    let* changes :=
      forOf allTemplates changes (fun changes template =>
        if negb (Template.intersectWith template gloStart gloEnd)
        then ret changes
        else
          let temStart := Template.globalOffsetToLocal template gloStart in
          let temEnd := Template.globalOffsetToLocal template gloEnd in
          let* edits :=
            invoke (TemplateCall "getFormattingEditsForRange" template [temStart; temEnd])
                   (h template temStart temEnd options) in
          forOf edits changes (fun changes change =>
            ret (changes ++ [translateTextChange template change]))) in
    (* Merge original formatting edits with template ones. *)
    let* original := callOriginal in
    ret (original ++ changes).

Definition wrapGetFormattingEditsForRange (this : TSLanguageServiceProxy)
  : TSLanguageServiceProxy :=
  match TemplateLanguageService.getFormattingEditsForRange (templateService this) with
  | None => this
  | Some h =>
      wrap this Key.getFormattingEditsForRange (getFormattingEditsForRange_wrapper this h)
  end.

(** *** getCodeFixesAtPosition *)

(** [change.textChanges.forEach(change => this.translateTextSpan(change.span, template))] *)
Definition translateFileTextChanges (template : Template.t)
  (change : FileTextChanges.t) : FileTextChanges.t :=
  {| FileTextChanges.fileName := FileTextChanges.fileName change;
     FileTextChanges.textChanges :=
       map (translateTextChange template) (FileTextChanges.textChanges change) |}.

(** [action.changes.forEach(...)] *)
Definition translateCodeFixAction (template : Template.t) (action : CodeFixAction.t)
  : CodeFixAction.t :=
  {| CodeFixAction.fixName := CodeFixAction.fixName action;
     CodeFixAction.description := CodeFixAction.description action;
     CodeFixAction.changes :=
       map (translateFileTextChanges template) (CodeFixAction.changes action) |}.

Definition getCodeFixesAtPosition_wrapper (this : TSLanguageServiceProxy)
  (h : Template.t -> Z -> Z -> list Z -> JsValue -> JsValue -> W ->
       list CodeFixAction.t * W)
  : LanguageServiceWrapper Key.getCodeFixesAtPosition :=
  fun callOriginal '((fileName, gloStart, gloEnd, errorCodes, options, preferences), _) =>
    let actions : list CodeFixAction.t := [] in
    let* allTemplates := getAllTemplates (templateProvider this) fileName in
    let* actions :=
      forOf allTemplates actions (fun actions template =>
        if negb (Template.intersectWith template gloStart gloEnd)
        then ret actions
        else
          let temStart := Template.globalOffsetToLocal template gloStart in
          let temEnd := Template.globalOffsetToLocal template gloEnd in
          let* fixes :=
            invoke (TemplateCall "getCodeFixesAtPosition" template [temStart; temEnd])
                   (h template temStart temEnd errorCodes options preferences) in
          forOf fixes actions (fun actions action =>
            ret (actions ++ [translateCodeFixAction template action]))) in
    (* Merge original code fixes with template ones. *)
    let* original := callOriginal in
    ret (original ++ actions).

Definition wrapGetCodeFixesAtPosition (this : TSLanguageServiceProxy)
  : TSLanguageServiceProxy :=
  match TemplateLanguageService.getCodeFixesAtPosition (templateService this) with
  | None => this
  | Some h =>
      wrap this Key.getCodeFixesAtPosition (getCodeFixesAtPosition_wrapper this h)
  end.

(** *** getSupportedCodeFixes

    Nothing is registered on the proxy: [ts.getSupportedCodeFixes] itself is
    replaced by a function that calls the one found at construction
    ([callOriginal], bound to [ts]) and appends the template codes. *)
Definition wrapGetSupportedCodeFixes (this : TSLanguageServiceProxy) (ts0 : ts.t W)
  : ts.t W :=
  match TemplateLanguageService.getSupportedCodeFixes (templateService this) with
  | None => ts0
  | Some h =>
      let callOriginal := ts.getSupportedCodeFixes ts0 in
      (* Merge original supported code fixes with template ones. *)
      {| ts.getSupportedCodeFixes :=
           let* original := callOriginal in
           let* codes := invoke TemplateRegistryCall h in
           ret (original ++ map StringOf codes) |}
  end.

(** *** getSignatureHelpItems *)

Definition translateSignatureHelpItems (template : Template.t)
  (items : SignatureHelpItems.t) : SignatureHelpItems.t :=
  {| SignatureHelpItems.items := SignatureHelpItems.items items;
     SignatureHelpItems.applicableSpan :=
       translateTextSpan (SignatureHelpItems.applicableSpan items) template;
     SignatureHelpItems.selectedItemIndex := SignatureHelpItems.selectedItemIndex items;
     SignatureHelpItems.argumentIndex := SignatureHelpItems.argumentIndex items;
     SignatureHelpItems.argumentCount := SignatureHelpItems.argumentCount items |}.

Definition getSignatureHelpItems_wrapper (this : TSLanguageServiceProxy)
  (h : Template.t -> Z -> JsValue -> W -> option SignatureHelpItems.t * W)
  : LanguageServiceWrapper Key.getSignatureHelpItems :=
  fun callOriginal '((fileName, gloOffset, options), _) =>
    let* template := getTemplateAt (templateProvider this) fileName gloOffset in
    match template with
    | None => callOriginal
    | Some template =>
        let temOffset := Template.globalOffsetToLocal template gloOffset in
        let* items :=
          invoke (TemplateCall "getSignatureHelpItemsAtPosition" template [temOffset])
                 (h template temOffset options) in
        (* Replace original signature help to template ones. *)
        ret (match items with
             | Some items => Some (translateSignatureHelpItems template items)
             | None => None
             end)
    end.

Definition wrapGetSignatureHelpItemsAtPosition (this : TSLanguageServiceProxy)
  : TSLanguageServiceProxy :=
  match TemplateLanguageService.getSignatureHelpItemsAtPosition (templateService this) with
  | None => this
  | Some h =>
      wrap this Key.getSignatureHelpItems (getSignatureHelpItems_wrapper this h)
  end.

(** *** getOutliningSpans *)

Definition translateOutliningSpan (template : Template.t)
  (outliningSpan : OutliningSpan.t) : OutliningSpan.t :=
  {| OutliningSpan.textSpan :=
       translateTextSpan (OutliningSpan.textSpan outliningSpan) template;
     OutliningSpan.hintSpan :=
       translateTextSpan (OutliningSpan.hintSpan outliningSpan) template;
     OutliningSpan.bannerText := OutliningSpan.bannerText outliningSpan;
     OutliningSpan.autoCollapse := OutliningSpan.autoCollapse outliningSpan;
     OutliningSpan.kind := OutliningSpan.kind outliningSpan |}.

Definition getOutliningSpans_wrapper (this : TSLanguageServiceProxy)
  (h : Template.t -> W -> list OutliningSpan.t * W)
  : LanguageServiceWrapper Key.getOutliningSpans :=
  fun callOriginal '(fileName, _) =>
    let spans : list OutliningSpan.t := [] in
    let* allTemplates := getAllTemplates (templateProvider this) fileName in
    let* spans :=
      forOf allTemplates spans (fun spans context =>
        let* found :=
          invoke (TemplateCall "getOutliningSpans" context []) (h context) in
        forOf found spans (fun spans outliningSpan =>
          ret (spans ++ [translateOutliningSpan context outliningSpan]))) in
    (* Merge original outlining spans with template ones. *)
    let* original := callOriginal in
    ret (original ++ spans).

Definition wrapGetOutliningSpans (this : TSLanguageServiceProxy)
  : TSLanguageServiceProxy :=
  match TemplateLanguageService.getOutliningSpans (templateService this) with
  | None => this
  | Some h => wrap this Key.getOutliningSpans (getOutliningSpans_wrapper this h)
  end.

(** *** findReferences *)

(** [this.translateTextSpan(symbol.definition.textSpan, context)] *)
Definition translateReferencedSymbol (template : Template.t)
  (symbol : ReferencedSymbol.t) : ReferencedSymbol.t :=
  let definition := ReferencedSymbol.definition symbol in
  {| ReferencedSymbol.definition :=
       {| ReferencedSymbolDefinitionInfo.fileName :=
            ReferencedSymbolDefinitionInfo.fileName definition;
          ReferencedSymbolDefinitionInfo.textSpan :=
            translateTextSpan (ReferencedSymbolDefinitionInfo.textSpan definition)
                              template;
          ReferencedSymbolDefinitionInfo.name :=
            ReferencedSymbolDefinitionInfo.name definition;
          ReferencedSymbolDefinitionInfo.displayParts :=
            ReferencedSymbolDefinitionInfo.displayParts definition |};
     ReferencedSymbol.references := ReferencedSymbol.references symbol |}.

Definition findReferences_wrapper (this : TSLanguageServiceProxy)
  (h : Template.t -> Z -> W -> option (list ReferencedSymbol.t) * W)
  : LanguageServiceWrapper Key.findReferences :=
  fun callOriginal '((fileName, gloOffset), _) =>
    let* context := getTemplateAt (templateProvider this) fileName gloOffset in
    match context with
    | None => callOriginal
    | Some context =>
        let temOffset := Template.globalOffsetToLocal context gloOffset in
        let* symbols :=
          invoke (TemplateCall "getReferencesAtPosition" context [temOffset])
                 (h context temOffset) in
        (* Replace original references to template ones. *)
        ret (match symbols with
             | Some symbols => Some (map (translateReferencedSymbol context) symbols)
             | None => None
             end)
    end.

Definition wrapGetReferencesAtPosition (this : TSLanguageServiceProxy)
  : TSLanguageServiceProxy :=
  match TemplateLanguageService.getReferencesAtPosition (templateService this) with
  | None => this
  | Some h => wrap this Key.findReferences (findReferences_wrapper this h)
  end.

(** *** getJsxClosingTagAtPosition *)

Definition getJsxClosingTagAtPosition_wrapper (this : TSLanguageServiceProxy)
  (h : Template.t -> Z -> W -> option JsValue * W)
  : LanguageServiceWrapper Key.getJsxClosingTagAtPosition :=
  fun callOriginal '((fileName, gloOffset), _) =>
    let* context := getTemplateAt (templateProvider this) fileName gloOffset in
    match context with
    | None => callOriginal
    | Some context =>
        let temOffset := Template.globalOffsetToLocal context gloOffset in
        let* info :=
          invoke (TemplateCall "getJsxClosingTagAtPosition" context [temOffset])
                 (h context temOffset) in
        (* Replace original closing tag to template ones. *)
        ret info
    end.

Definition wrapGetJsxClosingTagAtPosition (this : TSLanguageServiceProxy)
  : TSLanguageServiceProxy :=
  match TemplateLanguageService.getJsxClosingTagAtPosition (templateService this) with
  | None => this
  | Some h =>
      wrap this Key.getJsxClosingTagAtPosition (getJsxClosingTagAtPosition_wrapper this h)
  end.

(** *** The constructor

    [new TemplateServiceRouter(context)] and [new TemplateProvider(context)]
    are classes outside the sources at hand; the objects they build are taken
    as parameters.  The constructor returns the proxy and the [ts] module
    object as it leaves it. *)
Definition new_TSLanguageServiceProxy (router : TemplateLanguageService.t W)
  (provider : TemplateProvider) (context : ProjectContext) (ts0 : ts.t W)
  : TSLanguageServiceProxy * ts.t W :=
  let this :=
    {| context := context;
       templateService := router;
       templateProvider := provider;
       wrappers := [] |} in
  let this := wrapGetCompletionsAtPosition this in
  let this := wrapGetCompletionEntryDetails this in
  let this := wrapGetQuickInfoAtPosition this in
  let this := wrapGetDefinitionAtPosition this in
  let this := wrapGetDefinitionAndBoundSpan this in
  let this := wrapGetSemanticDiagnostics this in
  let this := wrapGetSyntacticDiagnostics this in
  let this := wrapGetFormattingEditsForRange this in
  let this := wrapGetCodeFixesAtPosition this in
  let ts1 := wrapGetSupportedCodeFixes this ts0 in
  let this := wrapGetSignatureHelpItemsAtPosition this in
  let this := wrapGetOutliningSpans this in
  let this := wrapGetReferencesAtPosition this in
  let this := wrapGetJsxClosingTagAtPosition this in
  (this, ts1).

(** *** decorate *)

(** The functions a service object offers, by key. *)
Definition ServiceFn (k : Key.t) : Type := ArgsOf k -> M W (ResOf k).

(** [Map<keyof TS.LanguageService, ValueOf<TS.LanguageService>>] *)
Definition ServiceMap : Type := forall k : Key.t, option (ServiceFn k).

Definition ServiceMap_empty : ServiceMap := fun _ => None.

(** [Map.prototype.set]: a later entry for a key replaces an earlier one. *)
Definition ServiceMap_set (m : ServiceMap) (k : Key.t) (f : ServiceFn k)
  : ServiceMap :=
  fun k' =>
    match Key.eq_dec k k' with
    | left e => Some (eq_rect k ServiceFn f k' e)
    | right _ => m k'
    end.

(** The function stored for one entry of [this.wrappers]. *)
Definition wrappedFn (rawLanguageService : LanguageService) (entry : WrapperEntry)
  : ServiceFn (name entry) :=
  fun args =>
    let rawServiceFn := rawLanguageService (name entry) in
    let callOriginal := invoke (HostCall (name entry)) (rawServiceFn args) in
    wrapper entry callOriginal args.

(** Decorate with low level typescript language service.  The result is the
    [get] trap of the proxy: the function found under each property. *)
Definition decorate (this : TSLanguageServiceProxy) : forall k : Key.t, ServiceFn k :=
  let rawLanguageService := service (context this) in
  let wrappedService :=
    fold_left (fun (m : ServiceMap) entry =>
                 ServiceMap_set m (name entry) (wrappedFn rawLanguageService entry))
              (wrappers this) ServiceMap_empty in
  fun property =>
    match wrappedService property with
    | Some f => f
    | None => callHost rawLanguageService property
    end.

End Proxy.

(** ** The lupos completion service: makeCompletionInfo *)

(** [complete-data/types.ts], interface [CompletionItem]. *)
Module CompletionItem.
Record t : Type := {
  name : string;
  description : string;
  (* If want to overwrite replacement range. *)
  start : option Z;
  end_ : option Z;
  (* Decide sort order, normally default value is `0`. *)
  order : option Z;
  kind : option ScriptElementKind
}.
End CompletionItem.

(** [Array.prototype.filter] with a callback that keeps state between the
    elements it is shown. *)
Fixpoint filterWith {A S : Type} (f : S -> A -> bool * S) (s : S) (l : list A)
  : list A :=
  match l with
  | [] => []
  | x :: rest =>
      let '(keep, s') := f s x in
      if keep then x :: filterWith f s' rest else filterWith f s' rest
  end.

Section Completion.

(** [TemplatePart] and [TemplatePartLocation] come from the lupos-ts-module
    package and [getScriptElementKind] from [./utils]; of a part, this
    function reads [part.start] and [part.end]. *)
Context {TemplatePart TemplatePartLocation : Type}.
Variable TemplatePart_start : TemplatePart -> Z.
Variable TemplatePart_end : TemplatePart -> Z.
Variable getScriptElementKind :
  CompletionItem.t -> TemplatePart -> TemplatePartLocation -> ScriptElementKind.

(** The callback of [items.map(...)]. *)
Definition makeCompletionEntry (part : TemplatePart) (location : TemplatePartLocation)
  (item : CompletionItem.t) : CompletionEntry.t :=
  let kind := getScriptElementKind item part location in
  let start := default (TemplatePart_start part) (CompletionItem.start item) in
  let end_ := default (TemplatePart_end part) (CompletionItem.end_ item) in
  let replacementSpan :=
    {| TextSpan.start := start; TextSpan.length := end_ - start |} in
  {| CompletionEntry.name := CompletionItem.name item;
     CompletionEntry.kind := kind;
     CompletionEntry.sortText := CompletionItem.name item;
     CompletionEntry.insertText := Some (CompletionItem.name item);
     CompletionEntry.replacementSpan := Some replacementSpan |}.

(** The callback of [entries.filter(...)], over the set [names]. *)
Definition keepUnlessRepetitive (names : gset string) (item : CompletionEntry.t)
  : bool * gset string :=
  if bool_decide (CompletionEntry.name item ∈ names)
  then (false, names)
  else (true, {[ CompletionEntry.name item ]} ∪ names).

Definition makeCompletionInfo (items : option (list CompletionItem.t))
  (part : TemplatePart) (location : TemplatePartLocation)
  : option CompletionInfo.t :=
  match items with
  | None => None
  | Some items =>
      let names : gset string := ∅ in
      let entries := map (makeCompletionEntry part location) items in
      (* Filter out repetitive items. *)
      let entries := filterWith keepUnlessRepetitive names entries in
      Some {| CompletionInfo.isGlobalCompletion := false;
              CompletionInfo.isMemberCompletion := false;
              CompletionInfo.isNewIdentifierLocation := false;
              CompletionInfo.entries := entries |}
  end.

End Completion.

(** ** The composite service and the vocabulary of the specification *)

Section Composite.

Context {W : Type}.

(** [new TSLanguageServiceProxy(context).decorate()]: the composite service
    handed to the editor. *)
Definition compositeService (router : TemplateLanguageService.t W)
  (provider : TemplateProvider) (context : ProjectContext) (ts0 : ts.t W)
  : forall k : Key.t, ServiceFn k :=
  decorate (fst (new_TSLanguageServiceProxy router provider context ts0)).

(** The keys under which [this.wrappers] holds an entry. *)
Definition wrappedNames (this : @TSLanguageServiceProxy W) : list Key.t :=
  map name (wrappers this).

(** The specification's reading of "invoke the handler per Template": the
    handler [h] runs once on each Template of [found], in order, each run
    starting in the world the previous one left.  The value is the list of
    what each Template produced, and the world after the last run. *)
Fixpoint perTemplate {A : Type} (h : Template.t -> W -> list A * W)
  (found : list Template.t) (w : W) : list (Template.t * list A) * W :=
  match found with
  | [] => ([], w)
  | template :: rest =>
      let '(produced, w1) := h template w in
      let '(others, w2) := perTemplate h rest w1 in
      ((template, produced) :: others, w2)
  end.

(** The specification's operation table: for each key of the composite
    surface, whether the template language service implements the hook that
    decides its wrapping.  Two keys are decided by a hook of another name. *)
Definition implementsHookFor (router : TemplateLanguageService.t W) (k : Key.t)
  : bool :=
  match k with
  | Key.getCompletionsAtPosition =>
      bool_decide (is_Some (TemplateLanguageService.getCompletionsAtPosition router))
  | Key.getCompletionEntryDetails =>
      bool_decide (is_Some (TemplateLanguageService.getCompletionEntryDetails router))
  | Key.getQuickInfoAtPosition =>
      bool_decide (is_Some (TemplateLanguageService.getQuickInfoAtPosition router))
  | Key.getDefinitionAtPosition =>
      bool_decide (is_Some (TemplateLanguageService.getDefinitionAtPosition router))
  | Key.getDefinitionAndBoundSpan =>
      bool_decide (is_Some (TemplateLanguageService.getDefinitionAndBoundSpan router))
  | Key.getSyntacticDiagnostics =>
      bool_decide (is_Some (TemplateLanguageService.getSyntacticDiagnostics router))
  | Key.getSemanticDiagnostics =>
      bool_decide (is_Some (TemplateLanguageService.getSemanticDiagnostics router))
  | Key.getFormattingEditsForRange =>
      bool_decide (is_Some (TemplateLanguageService.getFormattingEditsForRange router))
  | Key.getCodeFixesAtPosition =>
      bool_decide (is_Some (TemplateLanguageService.getCodeFixesAtPosition router))
  | Key.getSignatureHelpItems =>
      bool_decide
        (is_Some (TemplateLanguageService.getSignatureHelpItemsAtPosition router))
  | Key.getOutliningSpans =>
      bool_decide (is_Some (TemplateLanguageService.getOutliningSpans router))
  | Key.findReferences =>
      bool_decide (is_Some (TemplateLanguageService.getReferencesAtPosition router))
  | Key.getJsxClosingTagAtPosition =>
      bool_decide (is_Some (TemplateLanguageService.getJsxClosingTagAtPosition router))
  | Key.other _ => false
  end.

(** The specification's dispatcher table ("a declarative map consumed by one
    generic dispatcher"): the function registered for a key, if there is
    one, over a proxy that holds the three services and no wrapper yet. *)
Definition wrapperFor (router : TemplateLanguageService.t W)
  (provider : TemplateProvider) (context : ProjectContext) (k : Key.t)
  : option (LanguageServiceWrapper k) :=
  let this :=
    {| context := context;
       templateService := router;
       templateProvider := provider;
       wrappers := [] |} in
  match k return option (LanguageServiceWrapper k) with
  | Key.getCompletionsAtPosition =>
      option_map (getCompletionsAtPosition_wrapper this)
        (TemplateLanguageService.getCompletionsAtPosition router)
  | Key.getCompletionEntryDetails =>
      option_map (getCompletionEntryDetails_wrapper this)
        (TemplateLanguageService.getCompletionEntryDetails router)
  | Key.getQuickInfoAtPosition =>
      option_map (getQuickInfoAtPosition_wrapper this)
        (TemplateLanguageService.getQuickInfoAtPosition router)
  | Key.getDefinitionAtPosition =>
      option_map (getDefinitionAtPosition_wrapper this)
        (TemplateLanguageService.getDefinitionAtPosition router)
  | Key.getDefinitionAndBoundSpan =>
      option_map (getDefinitionAndBoundSpan_wrapper this)
        (TemplateLanguageService.getDefinitionAndBoundSpan router)
  | Key.getSyntacticDiagnostics =>
      option_map (getSyntacticDiagnostics_wrapper this)
        (TemplateLanguageService.getSyntacticDiagnostics router)
  | Key.getSemanticDiagnostics =>
      option_map (getSemanticDiagnostics_wrapper this)
        (TemplateLanguageService.getSemanticDiagnostics router)
  | Key.getFormattingEditsForRange =>
      option_map (getFormattingEditsForRange_wrapper this)
        (TemplateLanguageService.getFormattingEditsForRange router)
  | Key.getCodeFixesAtPosition =>
      option_map (getCodeFixesAtPosition_wrapper this)
        (TemplateLanguageService.getCodeFixesAtPosition router)
  | Key.getSignatureHelpItems =>
      option_map (getSignatureHelpItems_wrapper this)
        (TemplateLanguageService.getSignatureHelpItemsAtPosition router)
  | Key.getOutliningSpans =>
      option_map (getOutliningSpans_wrapper this)
        (TemplateLanguageService.getOutliningSpans router)
  | Key.findReferences =>
      option_map (findReferences_wrapper this)
        (TemplateLanguageService.getReferencesAtPosition router)
  | Key.getJsxClosingTagAtPosition =>
      option_map (getJsxClosingTagAtPosition_wrapper this)
        (TemplateLanguageService.getJsxClosingTagAtPosition router)
  | Key.other _ => None
  end.

(** [n] calls in a row of one function, with the values they returned. *)
Fixpoint callTimes {A : Type} (n : nat) (f : M W A) : M W (list A) :=
  match n with
  | O => ret []
  | S n' =>
      let* first := f in
      let* others := callTimes n' f in
      ret (first :: others)
  end.

End Composite.

(** ** A small project to run the model on

    The document [a.ts] of the specification's example: two Templates, at
    [7,16) and at [43,52).  The world is a counter of the external calls
    made so far. *)

Module Fixture.

Definition first : Template.t := {| Template.start := 7; Template.end_ := 16 |}.
Definition second : Template.t := {| Template.start := 43; Template.end_ := 52 |}.

Definition provider : @TemplateProvider nat :=
  {| templates := fun _ fileName =>
       if String.eqb fileName "a.ts" then [first; second] else [] |}.

Definition hostEntry : CompletionEntry.t :=
  {| CompletionEntry.name := "window";
     CompletionEntry.kind := "var";
     CompletionEntry.sortText := "11";
     CompletionEntry.insertText := None;
     CompletionEntry.replacementSpan := None |}.

Definition hostInfo : CompletionInfo.t :=
  {| CompletionInfo.isGlobalCompletion := true;
     CompletionInfo.isMemberCompletion := false;
     CompletionInfo.isNewIdentifierLocation := false;
     CompletionInfo.entries := [hostEntry] |}.

Definition hostQuickInfo : QuickInfo.t :=
  {| QuickInfo.kind := "const";
     QuickInfo.kindModifiers := "";
     QuickInfo.textSpan := Some {| TextSpan.start := 9; TextSpan.length := 4 |};
     QuickInfo.displayParts := JsUndefined;
     QuickInfo.documentation := JsUndefined |}.

Definition hostDiagnostic : Diagnostic.t :=
  {| Diagnostic.start := 1;
     Diagnostic.length := 5;
     Diagnostic.code := 2304;
     Diagnostic.messageText := "Cannot find name." |}.

Definition hostChange : TextChange.t :=
  {| TextChange.span := Some {| TextSpan.start := 0; TextSpan.length := 1 |};
     TextChange.newText := " " |}.

(** The host answers every operation and counts the call. *)
Definition host : @LanguageService nat :=
  fun k =>
    match k return ArgsOf k -> nat -> ResOf k * nat with
    | Key.getCompletionsAtPosition => fun _ w => (Some hostInfo, S w)
    | Key.getCompletionEntryDetails => fun _ w => (Some (JsString "host details"), S w)
    | Key.getQuickInfoAtPosition => fun _ w => (Some hostQuickInfo, S w)
    | Key.getDefinitionAtPosition => fun _ w => (None, S w)
    | Key.getDefinitionAndBoundSpan => fun _ w => (None, S w)
    | Key.getSyntacticDiagnostics => fun _ w => ([hostDiagnostic], S w)
    | Key.getSemanticDiagnostics => fun _ w => ([hostDiagnostic], S w)
    | Key.getFormattingEditsForRange => fun _ w => ([hostChange], S w)
    | Key.getCodeFixesAtPosition => fun _ w => ([], S w)
    | Key.getSignatureHelpItems => fun _ w => (None, S w)
    | Key.getOutliningSpans => fun _ w => ([], S w)
    | Key.findReferences => fun _ w => (Some [], S w)
    | Key.getJsxClosingTagAtPosition => fun _ w => (None, S w)
    | Key.other name => fun _ w => (JsString name, S w)
    end.

Definition context : @ProjectContext nat := {| service := host |}.

Definition templateEntry (name : string) (span : option TextSpan.t)
  : CompletionEntry.t :=
  {| CompletionEntry.name := name;
     CompletionEntry.kind := "property";
     CompletionEntry.sortText := name;
     CompletionEntry.insertText := Some name;
     CompletionEntry.replacementSpan := span |}.

Definition templateInfo : CompletionInfo.t :=
  {| CompletionInfo.isGlobalCompletion := false;
     CompletionInfo.isMemberCompletion := false;
     CompletionInfo.isNewIdentifierLocation := false;
     CompletionInfo.entries :=
       [ templateEntry "@click" (Some {| TextSpan.start := 1; TextSpan.length := 3 |});
         templateEntry "@change" None ] |}.

Definition templateQuickInfo : QuickInfo.t :=
  {| QuickInfo.kind := "class";
     QuickInfo.kindModifiers := "";
     QuickInfo.textSpan := Some {| TextSpan.start := 2; TextSpan.length := 5 |};
     QuickInfo.displayParts := JsString "<Icon>";
     QuickInfo.documentation := JsUndefined |}.

Definition templateDiagnostic (code : Z) : Diagnostic.t :=
  {| Diagnostic.start := 2;
     Diagnostic.length := 1;
     Diagnostic.code := code;
     Diagnostic.messageText := "Unknown binding." |}.

Definition templateChange (start : Z) : TextChange.t :=
  {| TextChange.span := Some {| TextSpan.start := start; TextSpan.length := 2 |};
     TextChange.newText := "" |}.

Definition templateAction : CodeFixAction.t :=
  {| CodeFixAction.fixName := "import";
     CodeFixAction.description := "Import the component";
     CodeFixAction.changes :=
       [ {| FileTextChanges.fileName := "a.ts";
            FileTextChanges.textChanges := [templateChange 0; templateChange 4] |};
         {| FileTextChanges.fileName := "b.ts";
            FileTextChanges.textChanges := [templateChange 1] |} ] |}.

Definition templateSymbol : ReferencedSymbol.t :=
  {| ReferencedSymbol.definition :=
       {| ReferencedSymbolDefinitionInfo.fileName := "a.ts";
          ReferencedSymbolDefinitionInfo.textSpan :=
            Some {| TextSpan.start := 3; TextSpan.length := 4 |};
          ReferencedSymbolDefinitionInfo.name := "Icon";
          ReferencedSymbolDefinitionInfo.displayParts := JsUndefined |};
     ReferencedSymbol.references := JsUndefined |}.

(** A template language service implementing every hook. *)
Definition router : TemplateLanguageService.t nat :=
  {| TemplateLanguageService.getCompletionsAtPosition :=
       Some (fun _ _ _ w => (Some templateInfo, S w));
     TemplateLanguageService.getCompletionEntryDetails :=
       Some (fun _ _ _ _ w => (None, S w));
     TemplateLanguageService.getQuickInfoAtPosition :=
       Some (fun _ _ w => (Some templateQuickInfo, S w));
     TemplateLanguageService.getDefinitionAtPosition :=
       Some (fun _ _ w => (None, S w));
     TemplateLanguageService.getDefinitionAndBoundSpan :=
       Some (fun _ _ w => (None, S w));
     TemplateLanguageService.getSyntacticDiagnostics :=
       Some (fun _ w => ([templateDiagnostic 9001], S w));
     TemplateLanguageService.getSemanticDiagnostics :=
       Some (fun _ w => ([templateDiagnostic 9002], S w));
     TemplateLanguageService.getFormattingEditsForRange :=
       Some (fun _ temStart _ _ w => ([templateChange 0], S w));
     TemplateLanguageService.getCodeFixesAtPosition :=
       Some (fun _ _ _ _ _ _ w => ([templateAction], S w));
     TemplateLanguageService.getSupportedCodeFixes :=
       Some (fun w => ([9001; 9002], S w));
     TemplateLanguageService.getSignatureHelpItemsAtPosition :=
       Some (fun _ _ _ w => (None, S w));
     TemplateLanguageService.getOutliningSpans :=
       Some (fun _ w => ([], S w));
     TemplateLanguageService.getReferencesAtPosition :=
       Some (fun _ _ w => (Some [templateSymbol], S w));
     TemplateLanguageService.getJsxClosingTagAtPosition :=
       Some (fun _ _ w => (None, S w)) |}.

(** The same service without the [getCompletionEntryDetails] hook. *)
Definition routerWithoutDetails : TemplateLanguageService.t nat :=
  {| TemplateLanguageService.getCompletionsAtPosition :=
       TemplateLanguageService.getCompletionsAtPosition router;
     TemplateLanguageService.getCompletionEntryDetails := None;
     TemplateLanguageService.getQuickInfoAtPosition :=
       TemplateLanguageService.getQuickInfoAtPosition router;
     TemplateLanguageService.getDefinitionAtPosition :=
       TemplateLanguageService.getDefinitionAtPosition router;
     TemplateLanguageService.getDefinitionAndBoundSpan :=
       TemplateLanguageService.getDefinitionAndBoundSpan router;
     TemplateLanguageService.getSyntacticDiagnostics :=
       TemplateLanguageService.getSyntacticDiagnostics router;
     TemplateLanguageService.getSemanticDiagnostics :=
       TemplateLanguageService.getSemanticDiagnostics router;
     TemplateLanguageService.getFormattingEditsForRange :=
       TemplateLanguageService.getFormattingEditsForRange router;
     TemplateLanguageService.getCodeFixesAtPosition :=
       TemplateLanguageService.getCodeFixesAtPosition router;
     TemplateLanguageService.getSupportedCodeFixes :=
       TemplateLanguageService.getSupportedCodeFixes router;
     TemplateLanguageService.getSignatureHelpItemsAtPosition :=
       TemplateLanguageService.getSignatureHelpItemsAtPosition router;
     TemplateLanguageService.getOutliningSpans :=
       TemplateLanguageService.getOutliningSpans router;
     TemplateLanguageService.getReferencesAtPosition :=
       TemplateLanguageService.getReferencesAtPosition router;
     TemplateLanguageService.getJsxClosingTagAtPosition :=
       TemplateLanguageService.getJsxClosingTagAtPosition router |}.

(** [ts.getSupportedCodeFixes] as the host ships it. *)
Definition hostTs : ts.t nat :=
  {| ts.getSupportedCodeFixes := ret ["1003"; "2304"]%string |}.

(** The state a request starts in: a fresh world and an empty call log. *)
Definition initial : State nat := mkState O [].

Definition composite : forall k : Key.t, @ServiceFn nat k :=
  compositeService router provider context hostTs.

Definition compositeWithoutDetails : forall k : Key.t, @ServiceFn nat k :=
  compositeService routerWithoutDetails provider context hostTs.

(** Completion items with a repeated name, and the part they complete. *)
Definition items : list CompletionItem.t :=
  [ {| CompletionItem.name := "click"; CompletionItem.description := "component event";
       CompletionItem.start := Some 3; CompletionItem.end_ := Some 8;
       CompletionItem.order := None; CompletionItem.kind := None |};
    {| CompletionItem.name := "change"; CompletionItem.description := "";
       CompletionItem.start := None; CompletionItem.end_ := None;
       CompletionItem.order := None; CompletionItem.kind := None |};
    {| CompletionItem.name := "click"; CompletionItem.description := "DOM event";
       CompletionItem.start := None; CompletionItem.end_ := None;
       CompletionItem.order := None; CompletionItem.kind := None |} ].

Definition partStart (part : Z * Z) : Z := fst part.
Definition partEnd (part : Z * Z) : Z := snd part.
Definition scriptElementKind (item : CompletionItem.t) (part : Z * Z) (location : unit)
  : ScriptElementKind :=
  default "property"%string (CompletionItem.kind item).

End Fixture.

(** ** Vocabulary for further properties of the decoration layer *)

(** The document a request names: the first parameter of every operation
    this layer can wrap. *)
Definition requestedFile (k : Key.t) : ArgsOf k -> option string :=
  match k return ArgsOf k -> option string with
  | Key.getCompletionsAtPosition => fun '((fileName, _, _), _) => Some fileName
  | Key.getCompletionEntryDetails => fun '((fileName, _, _, _), _) => Some fileName
  | Key.getQuickInfoAtPosition => fun '((fileName, _), _) => Some fileName
  | Key.getDefinitionAtPosition => fun '((fileName, _), _) => Some fileName
  | Key.getDefinitionAndBoundSpan => fun '((fileName, _), _) => Some fileName
  | Key.getSyntacticDiagnostics => fun '(fileName, _) => Some fileName
  | Key.getSemanticDiagnostics => fun '(fileName, _) => Some fileName
  | Key.getFormattingEditsForRange => fun '((fileName, _, _, _), _) => Some fileName
  | Key.getCodeFixesAtPosition => fun '((fileName, _, _, _, _, _), _) => Some fileName
  | Key.getSignatureHelpItems => fun '((fileName, _, _), _) => Some fileName
  | Key.getOutliningSpans => fun '(fileName, _) => Some fileName
  | Key.findReferences => fun '((fileName, _), _) => Some fileName
  | Key.getJsxClosingTagAtPosition => fun '((fileName, _), _) => Some fileName
  | Key.other _ => fun _ => None
  end.

(** ** The completion service: getCompletions

    [LuposCompletion.getCompletions] chooses, by the type of the template
    part, which private collector gathers the items, and builds the result
    with [makeCompletionInfo].  The collectors depend on the analyzer and on
    the completion data, both outside the sources at hand; what each of them
    returns is taken as given.  The [Logger.log] calls are left out. *)

(** [TemplatePartType] of the lupos-ts-module package: the members the
    completion service names, and every other member. *)
Module TemplatePartType.
Inductive t : Type :=
| Component
| DynamicComponent
| FlowControl
| SlotTag
| NormalStartTag
| Binding
| QueryAttribute
| Property
| Event
| UnSlottedAttribute
| other (n : nat).
End TemplatePartType.

(** [TemplatePartLocationType]: the members the completion service names, and
    every other member. *)
Module TemplatePartLocationType.
Inductive t : Type :=
| Name
| Modifier
| AttrValue
| other (n : nat).
End TemplatePartLocationType.

#[global] Instance TemplatePartLocationType_eq_decision :
  EqDecision TemplatePartLocationType.t.
Proof. solve_decision. Defined.

Section LuposCompletion.

Context {TemplatePart TemplatePartLocation TemplateOfPart : Type}.

(** What [getCompletions] and [makeCompletionInfo] read of a part and of a
    location: [part.type], [part.node.tagName], [part.rawName], [part.start],
    [part.end] and [location.type]. *)
Variable TemplatePart_type : TemplatePart -> TemplatePartType.t.
Variable TemplatePart_tagName : TemplatePart -> option string.
Variable TemplatePart_rawName : TemplatePart -> option string.
Variable TemplatePart_start : TemplatePart -> Z.
Variable TemplatePart_end : TemplatePart -> Z.
Variable TemplatePartLocation_type : TemplatePartLocation -> TemplatePartLocationType.t.

(** [./utils], [../complete-data], [../lupos-ts-module] and the analyzer. *)
Variable getScriptElementKind :
  CompletionItem.t -> TemplatePart -> TemplatePartLocation -> ScriptElementKind.
Variable getComponentsForCompletion : string -> list CompletionItem.t.
Variable filterCompletionItems : list CompletionItem.t -> string -> list CompletionItem.t.
Variable LuposControlFlowTags : list CompletionItem.t.
Variable LuposComponentAttributes : list CompletionItem.t.
Variable isComponent : option string -> bool.

(** The private collectors of the class. *)
Variable getBindingCompletionItems :
  TemplatePart -> TemplatePartLocation -> TemplateOfPart -> list CompletionItem.t.
Variable getQueryAttributeCompletionItems :
  TemplatePart -> TemplatePartLocation -> list CompletionItem.t.
Variable getPropertyCompletionInfo :
  TemplatePart -> TemplatePartLocation -> TemplateOfPart -> list CompletionItem.t.
Variable getEventCompletionItems :
  TemplatePart -> TemplatePartLocation -> TemplateOfPart -> list CompletionItem.t.

(** [this.makeCompletionInfo] of this class. *)
Definition makeInfo (items : option (list CompletionItem.t)) (part : TemplatePart)
  (location : TemplatePartLocation) : option CompletionInfo.t :=
  makeCompletionInfo TemplatePart_start TemplatePart_end getScriptElementKind
    items part location.

Definition getCompletions (part : TemplatePart) (location : TemplatePartLocation)
  (template : TemplateOfPart) : option CompletionInfo.t :=
  match TemplatePart_type part with
  (* `<a|`, `<|`, `<A|`, `<lu:|` *)
  | TemplatePartType.Component | TemplatePartType.DynamicComponent
  | TemplatePartType.FlowControl | TemplatePartType.SlotTag
  | TemplatePartType.NormalStartTag =>
      let tagName := default ""%string (TemplatePart_tagName part) in
      let components := getComponentsForCompletion tagName in
      let flowControlItems := filterCompletionItems LuposControlFlowTags tagName in
      makeInfo (Some (components ++ flowControlItems)) part location
  (* `:binding`, `?:binding` *)
  | TemplatePartType.Binding =>
      let items := getBindingCompletionItems part location template in
      makeInfo (Some items) part location
  (* `?xxx` *)
  | TemplatePartType.QueryAttribute =>
      let items := getQueryAttributeCompletionItems part location in
      makeInfo (Some items) part location
  (* `.xxx` *)
  | TemplatePartType.Property =>
      let items := getPropertyCompletionInfo part location template in
      makeInfo (Some items) part location
  (* `@xxx` or `@@xxx` *)
  | TemplatePartType.Event =>
      let items := getEventCompletionItems part location template in
      makeInfo (Some items) part location
  (* `tagName="xxx"` *)
  | TemplatePartType.UnSlottedAttribute =>
      if isComponent (TemplatePart_tagName part)
         && bool_decide (TemplatePartLocation_type location = TemplatePartLocationType.AttrValue)
      then
        match find (fun item =>
                      bool_decide (Some (CompletionItem.name item)
                                   = TemplatePart_rawName part))
                   LuposComponentAttributes with
        | Some item => makeInfo (Some [item]) part location
        | None => None
        end
      else None
  | TemplatePartType.other _ => None
  end.

End LuposCompletion.

(** ** The analyzer: discovering lupos bindings

    [lupos-service/analyzer/bindings.ts].  Of the TypeScript AST the two
    functions read a node's kind, its name, and the file it belongs to. *)

(** [String.prototype.includes]. *)
Fixpoint includes (s searchString : string) : bool :=
  String.prefix searchString s
  || match s with
     | EmptyString => false
     | String _ rest => includes rest searchString
     end.

Module SourceFile.
Record t : Type := { fileName : string }.
End SourceFile.

Module Node.
Inductive SyntaxKind : Type := ClassDeclaration | otherKind (n : nat).
(** [name] is the text of [node.name], when the node has a name;
    [getSourceFile] is what [node.getSourceFile()] returns. *)
Record t : Type := {
  kind : SyntaxKind;
  name : option string;
  getSourceFile : SourceFile.t
}.
End Node.

(** The record [LuposBinding] of [./types], by the fields
    [createLuposBinding] fills, over the type [TsType] of a TypeScript type
    object; [nameNode] is [node.name], held by its text. *)
Module LuposBinding.
Record t (TsType : Type) : Type := {
  name : string;
  nameNode : string;
  declaration : Node.t;
  type : TsType;
  description : string;
  sourceFile : SourceFile.t
}.
Arguments name {TsType} _.
Arguments nameNode {TsType} _.
Arguments declaration {TsType} _.
Arguments type {TsType} _.
Arguments description {TsType} _.
Arguments sourceFile {TsType} _.
End LuposBinding.

Section Bindings.

(** The type of a TypeScript type object, [TS.Type]. *)
Context {TsType : Type}.

(** [Helper] of the lupos-ts-module package, as far as it is called here. *)
Record Helper : Type := {
  isDerivedOf : Node.t -> string -> string -> bool;
  typeOf : Node.t -> TsType;
  getNodeDescription : Node.t -> option string
}.

(** [KnownInternalBindingNamesMap] of the lupos-ts-module package, a
    [Map<string, string>]. *)
Variable KnownInternalBindingNamesMap : gmap string string.

(** The children [ts.forEachChild] shows of a source file.  The callback
    passed below returns nothing, so every child is visited. *)
Variable forEachChild : SourceFile.t -> list Node.t.

(** [x || y] on strings: [y] when [x] is undefined or empty. *)
Definition orElse (x : option string) (y : string) : string :=
  match x with
  | Some EmptyString | None => y
  | Some s => s
  end.

(** Can use it to create custom object.  [node.name!.text] on a node without
    a name is a TypeError: the result is [None]. *)
Definition createLuposBinding (node : Node.t) (helper : Helper)
  : option (LuposBinding.t TsType) :=
  match Node.name node with
  | None => None
  | Some text =>
      let name := text in
      let sourceFile := Node.getSourceFile node in
      (* `ClassBinding` -> `class` *)
      let name :=
        if includes (SourceFile.fileName sourceFile) "/lupos.js/"
        then orElse (KnownInternalBindingNamesMap !! name) name
        else name in
      Some {| LuposBinding.name := name;
              LuposBinding.nameNode := text;
              LuposBinding.declaration := node;
              LuposBinding.type := typeOf helper node;
              LuposBinding.description := orElse (getNodeDescription helper node) "";
              LuposBinding.sourceFile := sourceFile |}
  end.

(** The test of the callback: a class declaration with a name that derives
    from [Binding] of [@pucelle/lupos.js] or is named like a known internal
    binding class. *)
Definition isLuposBindingClass (helper : Helper) (node : Node.t) : bool :=
  match Node.kind node, Node.name node with
  | Node.ClassDeclaration, Some text =>
      isDerivedOf helper node "Binding" "@pucelle/lupos.js"
      || bool_decide (is_Some (KnownInternalBindingNamesMap !! text))
  | _, _ => false
  end.

(** Walk and Discover all lupos bindings from a given node and it's
    children.  Only visit root class declarations.  A TypeError raised by
    [createLuposBinding] ends the walk: the result is [None]. *)
Definition analyzeLuposBindings (sourceFile : SourceFile.t) (helper : Helper)
  : option (list (LuposBinding.t TsType)) :=
  fold_left
    (fun (bindings : option (list (LuposBinding.t TsType))) node =>
       match bindings with
       | None => None
       | Some bindings =>
           if isLuposBindingClass helper node
           then match createLuposBinding node helper with
                | Some binding => Some (bindings ++ [binding])
                | None => None
                end
           else Some bindings
       end)
    (forEachChild sourceFile) (Some []).

End Bindings.

(** ** More of the project to run the model on *)

Module Fixture2.

(** A template language service implementing no hook. *)
Definition hookless : TemplateLanguageService.t nat :=
  {| TemplateLanguageService.getCompletionsAtPosition := None;
     TemplateLanguageService.getCompletionEntryDetails := None;
     TemplateLanguageService.getQuickInfoAtPosition := None;
     TemplateLanguageService.getDefinitionAtPosition := None;
     TemplateLanguageService.getDefinitionAndBoundSpan := None;
     TemplateLanguageService.getSyntacticDiagnostics := None;
     TemplateLanguageService.getSemanticDiagnostics := None;
     TemplateLanguageService.getFormattingEditsForRange := None;
     TemplateLanguageService.getCodeFixesAtPosition := None;
     TemplateLanguageService.getSupportedCodeFixes := None;
     TemplateLanguageService.getSignatureHelpItemsAtPosition := None;
     TemplateLanguageService.getOutliningSpans := None;
     TemplateLanguageService.getReferencesAtPosition := None;
     TemplateLanguageService.getJsxClosingTagAtPosition := None |}.

Definition signatureItems : SignatureHelpItems.t :=
  {| SignatureHelpItems.items := JsString "on(name, handler)";
     SignatureHelpItems.applicableSpan :=
       Some {| TextSpan.start := 1; TextSpan.length := 6 |};
     SignatureHelpItems.selectedItemIndex := 0;
     SignatureHelpItems.argumentIndex := 1;
     SignatureHelpItems.argumentCount := 2 |}.

Definition outliningSpan : OutliningSpan.t :=
  {| OutliningSpan.textSpan := Some {| TextSpan.start := 0; TextSpan.length := 9 |};
     OutliningSpan.hintSpan := Some {| TextSpan.start := 1; TextSpan.length := 3 |};
     OutliningSpan.bannerText := "<div>...";
     OutliningSpan.autoCollapse := false;
     OutliningSpan.kind := "code" |}.

(** A template language service implementing the signature-help, the
    outlining and the closing-tag hook, and no other. *)
Definition router : TemplateLanguageService.t nat :=
  {| TemplateLanguageService.getCompletionsAtPosition := None;
     TemplateLanguageService.getCompletionEntryDetails := None;
     TemplateLanguageService.getQuickInfoAtPosition := None;
     TemplateLanguageService.getDefinitionAtPosition := None;
     TemplateLanguageService.getDefinitionAndBoundSpan := None;
     TemplateLanguageService.getSyntacticDiagnostics := None;
     TemplateLanguageService.getSemanticDiagnostics := None;
     TemplateLanguageService.getFormattingEditsForRange := None;
     TemplateLanguageService.getCodeFixesAtPosition := None;
     TemplateLanguageService.getSupportedCodeFixes := None;
     TemplateLanguageService.getSignatureHelpItemsAtPosition :=
       Some (fun _ _ _ w => (Some signatureItems, S w));
     TemplateLanguageService.getOutliningSpans :=
       Some (fun _ w => ([outliningSpan], S w));
     TemplateLanguageService.getReferencesAtPosition := None;
     TemplateLanguageService.getJsxClosingTagAtPosition :=
       Some (fun _ temOffset w => (Some (JsNumber temOffset), S w)) |}.

Definition composite : forall k : Key.t, @ServiceFn nat k :=
  compositeService router Fixture.provider Fixture.context Fixture.hostTs.

(** A proxy holding two wrappers under one key. *)
Definition earlier : @WrapperEntry nat :=
  {| name := Key.getJsxClosingTagAtPosition;
     wrapper := fun _ _ => ret (Some (JsString "earlier")) |}.

Definition later : @WrapperEntry nat :=
  {| name := Key.getJsxClosingTagAtPosition;
     wrapper := fun callOriginal _ =>
                  let* original := callOriginal in ret (Some (JsString "later")) |}.

Definition registeredTwice : @TSLanguageServiceProxy nat :=
  {| context := Fixture.context;
     templateService := hookless;
     templateProvider := Fixture.provider;
     wrappers := [earlier; later] |}.

(** Two items of different names. *)
Definition distinctItems : list CompletionItem.t :=
  [ {| CompletionItem.name := "click"; CompletionItem.description := "";
       CompletionItem.start := Some 3; CompletionItem.end_ := None;
       CompletionItem.order := None; CompletionItem.kind := None |};
    {| CompletionItem.name := "change"; CompletionItem.description := "";
       CompletionItem.start := None; CompletionItem.end_ := None;
       CompletionItem.order := None; CompletionItem.kind := None |} ].

(** A template part, by what the completion service reads of it. *)
Record Part : Type := {
  type : TemplatePartType.t;
  tagName : option string;
  rawName : option string;
  start : Z;
  end_ : Z
}.

Definition eventPart : Part :=
  {| type := TemplatePartType.Event; tagName := Some "button"%string;
     rawName := Some "@cli"%string; start := 20; end_ := 24 |}.

(** [getCompletions] over collectors that answer with fixed items. *)
Definition getCompletions (part : Part) (location : TemplatePartLocationType.t)
  : option CompletionInfo.t :=
  getCompletions type tagName rawName start end_ (fun location => location)
    (fun item _ _ => default "property"%string (CompletionItem.kind item))
    (fun _ => []) (fun items _ => items) [] distinctItems
    (fun tagName => bool_decide (tagName = Some "Icon"%string))
    (fun _ _ _ => distinctItems) (fun _ _ => []) (fun _ _ _ => [])
    (fun _ _ _ => Fixture.items)
    part location tt.

End Fixture2.

(** * Properties *)

Section Properties.

Context {W : Type}.

Implicit Types (this : @TSLanguageServiceProxy W) (st : State W)
  (template : Template.t) (router : TemplateLanguageService.t W)
  (provider : @TemplateProvider W) (context : @ProjectContext W).

(** ** The position model *)

Lemma localOffsetToGlobal_globalOffsetToLocal template (o : Z) :
  Template.localOffsetToGlobal template (Template.globalOffsetToLocal template o) = o.
Proof. unfold Template.localOffsetToGlobal, Template.globalOffsetToLocal. lia. Qed.

Lemma intersectWith_true template (s e : Z) :
  Template.intersectWith template s e = true <->
  exists o, (s <= o < e) /\ (Template.start template <= o < Template.end_ template).
Proof.
  unfold Template.intersectWith. rewrite Z.ltb_lt. split.
  - intros Hlt. exists (Z.max s (Template.start template)). lia.
  - intros (o & Hreq & Htpl). lia.
Qed.

Lemma intersectWith_false template (s e : Z) :
  Template.intersectWith template s e = false <->
  forall o, s <= o < e -> ~ (Template.start template <= o < Template.end_ template).
Proof.
  rewrite <- Bool.not_true_iff_false, intersectWith_true. split.
  - intros Hno o Hreq Htpl. apply Hno. eauto.
  - intros Hno (o & Hreq & Htpl). exact (Hno o Hreq Htpl).
Qed.

Lemma contains_true template (o : Z) :
  Template.contains template o = true <->
  Template.start template <= o < Template.end_ template.
Proof. unfold Template.contains. rewrite Bool.andb_true_iff, Z.leb_le, Z.ltb_lt. tauto. Qed.

(** [templateAt] answers with a Template of the document that contains the
    offset, the first one in document order. *)
Lemma templateAt_Some provider (w : W) fileName (gloOffset : Z) template :
  templateAt provider w fileName gloOffset = Some template ->
  In template (templates provider w fileName) /\
  Template.start template <= gloOffset < Template.end_ template.
Proof.
  unfold templateAt. intros Hfind. apply find_some in Hfind.
  rewrite contains_true in Hfind. exact Hfind.
Qed.

(** [templateAt] answers with nothing exactly when no Template of the
    document contains the offset. *)
Lemma templateAt_None provider (w : W) fileName (gloOffset : Z) :
  templateAt provider w fileName gloOffset = None <->
  forall template, In template (templates provider w fileName) ->
    ~ (Template.start template <= gloOffset < Template.end_ template).
Proof.
  unfold templateAt. split.
  - intros Hfind template Hin Hcontains.
    apply (find_none _ _ Hfind) in Hin.
    apply contains_true in Hcontains. congruence.
  - intros Hno.
    destruct (find _ _) as [template|] eqn:Hfind; [|reflexivity].
    apply find_some in Hfind. destruct Hfind as [Hin Hc].
    apply contains_true in Hc. destruct (Hno template Hin Hc).
Qed.

(** ** decorate: what the proxy finds under a key *)

Local Abbreviation wrappedServiceOf raw ws :=
  (fold_left (fun (m : ServiceMap) entry =>
                ServiceMap_set m (name entry) (wrappedFn raw entry))
             ws ServiceMap_empty).

Lemma ServiceMap_set_same (m : @ServiceMap W) (k : Key.t) (f : ServiceFn k) :
  ServiceMap_set m k f k = Some f.
Proof.
  unfold ServiceMap_set. destruct (Key.eq_dec k k) as [e|n]; [|contradiction].
  assert (e = eq_refl) as -> by apply (proof_irrel e eq_refl).
  reflexivity.
Qed.

Lemma ServiceMap_set_other (m : @ServiceMap W) (k k' : Key.t) (f : ServiceFn k) :
  k <> k' -> ServiceMap_set m k f k' = m k'.
Proof.
  intros Hne. unfold ServiceMap_set.
  destruct (Key.eq_dec k k') as [e|n]; [contradiction|reflexivity].
Qed.

Lemma wrappedService_fold (raw : @LanguageService W) (ws : list WrapperEntry)
  (m : ServiceMap) (k : Key.t) :
  ~ In k (map name ws) ->
  fold_left (fun (m : ServiceMap) entry =>
               ServiceMap_set m (name entry) (wrappedFn raw entry)) ws m k = m k.
Proof.
  revert m. induction ws as [|entry ws IH]; intros m Hnot; [reflexivity|].
  cbn [fold_left]. rewrite IH.
  - apply ServiceMap_set_other. intros Heq. apply Hnot. left. exact Heq.
  - intros Hin. apply Hnot. right. exact Hin.
Qed.

Lemma wrappedService_snoc_same (raw : @LanguageService W) (ws : list WrapperEntry)
  (k : Key.t) (w : LanguageServiceWrapper k) :
  wrappedServiceOf raw (ws ++ [ {| name := k; wrapper := w |} ]) k
  = Some (fun args => w (invoke (HostCall k) (raw k args)) args).
Proof. rewrite fold_left_app. cbn [fold_left]. apply ServiceMap_set_same. Qed.

Lemma wrappedService_snoc_other (raw : @LanguageService W) (ws : list WrapperEntry)
  (entry : WrapperEntry) (k : Key.t) :
  name entry <> k ->
  wrappedServiceOf raw (ws ++ [entry]) k = wrappedServiceOf raw ws k.
Proof.
  intros Hne. rewrite fold_left_app. cbn [fold_left].
  apply ServiceMap_set_other. exact Hne.
Qed.

(** ** The constructor: what each [wrap...] step leaves behind *)

(** A step either leaves the proxy as it is or registers one wrapper under
    the key [k]. *)
Local Abbreviation registersAt step k :=
  (forall this, step this = this \/ exists w, step this = wrap this k w).

Local Ltac registers_step :=
  match goal with
  | |- context [match ?hook with Some _ => _ | None => _ end] => destruct hook
  end; eauto.

Lemma wrapGetCompletionsAtPosition_step :
  registersAt (@wrapGetCompletionsAtPosition W) Key.getCompletionsAtPosition.
Proof. intros this. unfold wrapGetCompletionsAtPosition. registers_step. Qed.

Lemma wrapGetCompletionEntryDetails_step :
  registersAt (@wrapGetCompletionEntryDetails W) Key.getCompletionEntryDetails.
Proof. intros this. unfold wrapGetCompletionEntryDetails. registers_step. Qed.

Lemma wrapGetQuickInfoAtPosition_step :
  registersAt (@wrapGetQuickInfoAtPosition W) Key.getQuickInfoAtPosition.
Proof. intros this. unfold wrapGetQuickInfoAtPosition. registers_step. Qed.

Lemma wrapGetDefinitionAtPosition_step :
  registersAt (@wrapGetDefinitionAtPosition W) Key.getDefinitionAtPosition.
Proof. intros this. unfold wrapGetDefinitionAtPosition. registers_step. Qed.

Lemma wrapGetDefinitionAndBoundSpan_step :
  registersAt (@wrapGetDefinitionAndBoundSpan W) Key.getDefinitionAndBoundSpan.
Proof. intros this. unfold wrapGetDefinitionAndBoundSpan. registers_step. Qed.

Lemma wrapGetSemanticDiagnostics_step :
  registersAt (@wrapGetSemanticDiagnostics W) Key.getSemanticDiagnostics.
Proof. intros this. unfold wrapGetSemanticDiagnostics. registers_step. Qed.

Lemma wrapGetSyntacticDiagnostics_step :
  registersAt (@wrapGetSyntacticDiagnostics W) Key.getSyntacticDiagnostics.
Proof. intros this. unfold wrapGetSyntacticDiagnostics. registers_step. Qed.

Lemma wrapGetFormattingEditsForRange_step :
  registersAt (@wrapGetFormattingEditsForRange W) Key.getFormattingEditsForRange.
Proof. intros this. unfold wrapGetFormattingEditsForRange. registers_step. Qed.

Lemma wrapGetCodeFixesAtPosition_step :
  registersAt (@wrapGetCodeFixesAtPosition W) Key.getCodeFixesAtPosition.
Proof. intros this. unfold wrapGetCodeFixesAtPosition. registers_step. Qed.

Lemma wrapGetSignatureHelpItemsAtPosition_step :
  registersAt (@wrapGetSignatureHelpItemsAtPosition W) Key.getSignatureHelpItems.
Proof. intros this. unfold wrapGetSignatureHelpItemsAtPosition. registers_step. Qed.

Lemma wrapGetOutliningSpans_step :
  registersAt (@wrapGetOutliningSpans W) Key.getOutliningSpans.
Proof. intros this. unfold wrapGetOutliningSpans. registers_step. Qed.

Lemma wrapGetReferencesAtPosition_step :
  registersAt (@wrapGetReferencesAtPosition W) Key.findReferences.
Proof. intros this. unfold wrapGetReferencesAtPosition. registers_step. Qed.

Lemma wrapGetJsxClosingTagAtPosition_step :
  registersAt (@wrapGetJsxClosingTagAtPosition W) Key.getJsxClosingTagAtPosition.
Proof. intros this. unfold wrapGetJsxClosingTagAtPosition. registers_step. Qed.

(** A step changes none of the three services the proxy holds. *)
Lemma step_services (step : @TSLanguageServiceProxy W -> TSLanguageServiceProxy)
  (k : Key.t) this :
  registersAt step k ->
  context (step this) = context this /\
  templateService (step this) = templateService this /\
  templateProvider (step this) = templateProvider this.
Proof.
  intros Hstep. destruct (Hstep this) as [-> | [w ->]]; repeat split; reflexivity.
Qed.

(** A step leaves what is found under every other key as it was. *)
Lemma step_other (raw : @LanguageService W)
  (step : @TSLanguageServiceProxy W -> TSLanguageServiceProxy) (k k' : Key.t) this :
  registersAt step k -> k <> k' ->
  wrappedServiceOf raw (wrappers (step this)) k'
  = wrappedServiceOf raw (wrappers this) k'.
Proof.
  intros Hstep Hne. destruct (Hstep this) as [-> | [w ->]]; [reflexivity|].
  unfold wrap. cbn [wrappers]. apply wrappedService_snoc_other. exact Hne.
Qed.

(** A step leaves the list of wrapped keys as it was or adds its own key. *)
Lemma step_names (step : @TSLanguageServiceProxy W -> TSLanguageServiceProxy)
  (k k' : Key.t) this :
  registersAt step k -> k <> k' ->
  In k' (wrappedNames (step this)) <-> In k' (wrappedNames this).
Proof.
  intros Hstep Hne. destruct (Hstep this) as [-> | [w ->]]; [reflexivity|].
  unfold wrappedNames, wrap. cbn [wrappers]. rewrite map_app, in_app_iff. cbn.
  tauto.
Qed.

Create HintDb steps.

#[local] Hint Resolve wrapGetCompletionsAtPosition_step
  wrapGetCompletionEntryDetails_step wrapGetQuickInfoAtPosition_step
  wrapGetDefinitionAtPosition_step wrapGetDefinitionAndBoundSpan_step
  wrapGetSemanticDiagnostics_step wrapGetSyntacticDiagnostics_step
  wrapGetFormattingEditsForRange_step wrapGetCodeFixesAtPosition_step
  wrapGetSignatureHelpItemsAtPosition_step wrapGetOutliningSpans_step
  wrapGetReferencesAtPosition_step wrapGetJsxClosingTagAtPosition_step : steps.

Lemma step_context (step : @TSLanguageServiceProxy W -> TSLanguageServiceProxy)
  (k : Key.t) this :
  registersAt step k -> context (step this) = context this.
Proof. intros Hstep. apply (step_services step k this Hstep). Qed.

Lemma step_templateService
  (step : @TSLanguageServiceProxy W -> TSLanguageServiceProxy) (k : Key.t) this :
  registersAt step k -> templateService (step this) = templateService this.
Proof. intros Hstep. apply (step_services step k this Hstep). Qed.

Lemma step_templateProvider
  (step : @TSLanguageServiceProxy W -> TSLanguageServiceProxy) (k : Key.t) this :
  registersAt step k -> templateProvider (step this) = templateProvider this.
Proof. intros Hstep. apply (step_services step k this Hstep). Qed.

(** Rewrite the services of a proxy under construction to those it started
    with. *)
Local Ltac services :=
  repeat first
    [ erewrite step_context by eauto with steps
    | erewrite step_templateService by eauto with steps
    | erewrite step_templateProvider by eauto with steps ];
  cbn [context templateService templateProvider].

(** Drop the construction steps that register another key than the one
    looked up. *)
Local Ltac peel :=
  repeat (erewrite step_other; [ | solve [eauto with steps] | discriminate ]).

(** The wrapper registered at the step of the key looked up. *)
Local Ltac registered unfolder :=
  unfolder; services;
  match goal with
  | |- context [option_map _ ?hook] => destruct hook eqn:Hhook
  end;
  [ unfold wrap; cbn [wrappers]; rewrite wrappedService_snoc_same; cbn [option_map];
    unfold callHost; services; reflexivity
  | peel; reflexivity ].

(** [decorate] after the constructor is the dispatcher over the table
    [wrapperFor]: under a key with a registered wrapper, the wrapper applied
    to the host call and the arguments; under any other key, the host's own
    function. *)
Lemma compositeService_table router provider context ts0 (k : Key.t) :
  compositeService router provider context ts0 k =
  match wrapperFor router provider context k with
  | Some w => fun args => w (callHost (service context) k args) args
  | None => callHost (service context) k
  end.
Proof.
  unfold compositeService, decorate, new_TSLanguageServiceProxy, wrapperFor.
  cbv zeta. cbn [fst]. services.
  destruct k; peel.
  - registered ltac:(unfold wrapGetCompletionsAtPosition, getCompletionsAtPosition_wrapper).
  - registered ltac:(unfold wrapGetCompletionEntryDetails, getCompletionEntryDetails_wrapper).
  - registered ltac:(unfold wrapGetQuickInfoAtPosition, getQuickInfoAtPosition_wrapper).
  - registered ltac:(unfold wrapGetDefinitionAtPosition, getDefinitionAtPosition_wrapper).
  - registered ltac:(unfold wrapGetDefinitionAndBoundSpan, getDefinitionAndBoundSpan_wrapper).
  - registered ltac:(unfold wrapGetSyntacticDiagnostics, getSyntacticDiagnostics_wrapper).
  - registered ltac:(unfold wrapGetSemanticDiagnostics, getSemanticDiagnostics_wrapper).
  - registered ltac:(unfold wrapGetFormattingEditsForRange, getFormattingEditsForRange_wrapper).
  - registered ltac:(unfold wrapGetCodeFixesAtPosition, getCodeFixesAtPosition_wrapper).
  - registered ltac:(unfold wrapGetSignatureHelpItemsAtPosition, getSignatureHelpItems_wrapper).
  - registered ltac:(unfold wrapGetOutliningSpans, getOutliningSpans_wrapper).
  - registered ltac:(unfold wrapGetReferencesAtPosition, findReferences_wrapper).
  - registered ltac:(unfold wrapGetJsxClosingTagAtPosition, getJsxClosingTagAtPosition_wrapper).
  - reflexivity.
Qed.

(** Drop the construction steps that register another key, for the list of
    wrapped keys. *)
Local Ltac peel_names :=
  repeat (erewrite step_names; [ | solve [eauto with steps] | discriminate ]).

Local Ltac named unfolder :=
  unfolder; services;
  match goal with
  | |- context [bool_decide (is_Some ?hook)] => destruct hook eqn:Hhook
  end;
  [ unfold wrappedNames, wrap; cbn [wrappers]; rewrite map_app, in_app_iff;
    split; [ reflexivity | intros _; right; left; reflexivity ]
  | peel_names; split; [ intros [] | discriminate ] ].

(** The keys with a registered wrapper are those the operation table marks. *)
Lemma wrappedNames_table router provider context ts0 (k : Key.t) :
  In k (wrappedNames (fst (new_TSLanguageServiceProxy router provider context ts0)))
  <-> implementsHookFor router k = true.
Proof.
  unfold new_TSLanguageServiceProxy, implementsHookFor. cbv zeta. cbn [fst].
  destruct k; peel_names.
  - named ltac:(unfold wrapGetCompletionsAtPosition).
  - named ltac:(unfold wrapGetCompletionEntryDetails).
  - named ltac:(unfold wrapGetQuickInfoAtPosition).
  - named ltac:(unfold wrapGetDefinitionAtPosition).
  - named ltac:(unfold wrapGetDefinitionAndBoundSpan).
  - named ltac:(unfold wrapGetSyntacticDiagnostics).
  - named ltac:(unfold wrapGetSemanticDiagnostics).
  - named ltac:(unfold wrapGetFormattingEditsForRange).
  - named ltac:(unfold wrapGetCodeFixesAtPosition).
  - named ltac:(unfold wrapGetSignatureHelpItemsAtPosition).
  - named ltac:(unfold wrapGetOutliningSpans).
  - named ltac:(unfold wrapGetReferencesAtPosition).
  - named ltac:(unfold wrapGetJsxClosingTagAtPosition).
  - split; [ intros [] | discriminate ].
Qed.

(** ** Loops over the Templates of a document *)

(** A loop that pushes what it is given, one value at a time. *)
Lemma forOf_push {A B : Type} (g : A -> B) (xs : list A) (acc : list B) st :
  forOf xs acc (fun acc x => ret (acc ++ [g x])) st = (acc ++ map g xs, st).
Proof.
  revert acc. induction xs as [|x xs IH]; intros acc; cbn.
  - rewrite app_nil_r. reflexivity.
  - unfold bind, ret at 1. rewrite IH, <- app_assoc. reflexivity.
Qed.

(** A loop that calls a handler on every Template and pushes all it
    returns: the accumulator grows by the handler results in document
    order, one call is logged per Template. *)
Lemma forOf_perTemplate {A B : Type} (label : Template.t -> Call)
  (h : Template.t -> W -> list A * W) (g : Template.t -> A -> B)
  (body : list B -> Template.t -> M W (list B))
  (found : list Template.t) (acc : list B) st :
  (forall acc template st,
      body acc template st =
      (acc ++ map (g template) (fst (h template (world st))),
       mkState (snd (h template (world st))) (calls st ++ [label template]))) ->
  forOf found acc body st =
  (acc ++ flat_map (fun '(template, produced) => map (g template) produced)
                   (fst (perTemplate h found (world st))),
   mkState (snd (perTemplate h found (world st))) (calls st ++ map label found)).
Proof.
  intros Hbody. revert acc st.
  induction found as [|template found IH]; intros acc [w log]; cbn.
  - rewrite !app_nil_r. reflexivity.
  - unfold bind. rewrite Hbody. cbn [world calls].
    destruct (h template w) as [produced w1]. cbn [fst snd].
    rewrite IH. cbn [world calls].
    destruct (perTemplate h found w1) as [others w2]. cbn [fst snd flat_map].
    rewrite <- !app_assoc. reflexivity.
Qed.

(** The same loop when Templates failing a test are skipped. *)
Lemma forOf_perTemplate_filter {A B : Type} (keep : Template.t -> bool)
  (label : Template.t -> Call)
  (h : Template.t -> W -> list A * W) (g : Template.t -> A -> B)
  (body : list B -> Template.t -> M W (list B))
  (found : list Template.t) (acc : list B) st :
  (forall acc template st,
      body acc template st =
      if keep template
      then (acc ++ map (g template) (fst (h template (world st))),
            mkState (snd (h template (world st))) (calls st ++ [label template]))
      else (acc, st)) ->
  forOf found acc body st =
  (acc ++ flat_map (fun '(template, produced) => map (g template) produced)
                   (fst (perTemplate h (List.filter keep found) (world st))),
   mkState (snd (perTemplate h (List.filter keep found) (world st)))
           (calls st ++ map label (List.filter keep found))).
Proof.
  intros Hbody. revert acc st.
  induction found as [|template found IH]; intros acc [w log]; cbn.
  - rewrite !app_nil_r. reflexivity.
  - unfold bind. rewrite Hbody. cbn [world calls].
    destruct (keep template); cbn [perTemplate map].
    + destruct (h template w) as [produced w1]. cbn [fst snd].
      rewrite IH. cbn [world calls].
      destruct (perTemplate h (List.filter keep found) w1) as [others w2].
      cbn [fst snd flat_map]. rewrite <- !app_assoc. reflexivity.
    + rewrite IH. reflexivity.
Qed.

(** The loop of [getSyntacticDiagnostics]: every Template is visited and the
    handler called, and the accumulator, spread into itself, stays empty. *)
Lemma forOf_self_spread {A B : Type} (label : Template.t -> Call)
  (h : Template.t -> W -> list A * W) (found : list Template.t) st :
  forOf found (@nil B)
        (fun acc template => let* sub := invoke (label template) (h template) in
                             ret (acc ++ acc)) st =
  ([], mkState (snd (perTemplate h found (world st))) (calls st ++ map label found)).
Proof.
  revert st. induction found as [|template found IH]; intros [w log]; cbn.
  - rewrite app_nil_r. reflexivity.
  - unfold bind at 1. unfold bind at 1. unfold invoke at 1. cbn [world calls].
    destruct (h template w) as [produced w1]. unfold ret at 1. cbn [app].
    rewrite IH. cbn [world calls].
    destruct (perTemplate h found w1) as [others w2]. cbn [snd].
    rewrite <- app_assoc. reflexivity.
Qed.

(** ** The composite service, operation by operation *)

(** C1. getCompletionsAtPosition on the composite service.  When no Template
    of the document contains the requested global offset, the call is the
    host's call, unchanged.  When the template language service implements
    the hook and a Template contains the offset, the one external call made
    is the hook, on that Template and the offset converted to local; what it
    returns is returned, with the start of every replacement span moved to
    global; the host is not called, also when the hook returns nothing. *)
Theorem getCompletionsAtPosition_replaces router provider context ts0
  (fileName : string) (gloOffset : Z) (options : JsValue) (rest : list JsValue) st :
  let args : ArgsOf Key.getCompletionsAtPosition := ((fileName, gloOffset, options), rest) in
  let composite :=
    compositeService router provider context ts0 Key.getCompletionsAtPosition in
  ((forall template, In template (templates provider (world st) fileName) ->
      ~ (Template.start template <= gloOffset < Template.end_ template)) ->
   composite args st = callHost (service context) Key.getCompletionsAtPosition args st)
  /\
  (forall h template,
     TemplateLanguageService.getCompletionsAtPosition router = Some h ->
     templateAt provider (world st) fileName gloOffset = Some template ->
     let temOffset := gloOffset - Template.start template in
     let handled := h template temOffset options (world st) in
     composite args st =
     (match fst handled with
      | Some info =>
          Some {| CompletionInfo.isGlobalCompletion := CompletionInfo.isGlobalCompletion info;
                  CompletionInfo.isMemberCompletion := CompletionInfo.isMemberCompletion info;
                  CompletionInfo.isNewIdentifierLocation :=
                    CompletionInfo.isNewIdentifierLocation info;
                  CompletionInfo.entries :=
                    map (fun entry =>
                           {| CompletionEntry.name := CompletionEntry.name entry;
                              CompletionEntry.kind := CompletionEntry.kind entry;
                              CompletionEntry.sortText := CompletionEntry.sortText entry;
                              CompletionEntry.insertText := CompletionEntry.insertText entry;
                              CompletionEntry.replacementSpan :=
                                match CompletionEntry.replacementSpan entry with
                                | Some span =>
                                    Some {| TextSpan.start :=
                                              TextSpan.start span + Template.start template;
                                            TextSpan.length := TextSpan.length span |}
                                | None => None
                                end |})
                        (CompletionInfo.entries info) |}
      | None => None
      end,
      mkState (snd handled)
              (calls st ++ [TemplateCall "getCompletionsAtPosition" template [temOffset]]))).
Proof.
  intros args composite. subst composite.
  rewrite compositeService_table. unfold wrapperFor. split.
  - intros Hnone. apply templateAt_None in Hnone.
    destruct (TemplateLanguageService.getCompletionsAtPosition router) as [h|];
      [|reflexivity].
    cbn [option_map]. unfold getCompletionsAtPosition_wrapper, args.
    unfold bind, getTemplateAt. cbn [templateProvider]. rewrite Hnone. reflexivity.
  - intros h template Hhook Hat. cbv zeta. rewrite Hhook. cbn [option_map].
    unfold getCompletionsAtPosition_wrapper, args.
    unfold bind at 1. unfold getTemplateAt. cbn [templateProvider templateService].
    rewrite Hat, Hhook.
    unfold bind, invoke, ret, Template.globalOffsetToLocal.
    destruct (h template (gloOffset - Template.start template) options (world st))
      as [[info|] w1]; reflexivity.
Qed.

(** Every call of the composite getSyntacticDiagnostics returns exactly what
    the host returns: the handler is called on every Template of the
    document, and nothing it produces reaches the result. *)
Lemma getSyntacticDiagnostics_host_only router provider context ts0 h
  (fileName : string) (rest : list JsValue) st :
  TemplateLanguageService.getSyntacticDiagnostics router = Some h ->
  let found := templates provider (world st) fileName in
  let produced := perTemplate h found (world st) in
  let original :=
    service context Key.getSyntacticDiagnostics (fileName, rest) (snd produced) in
  compositeService router provider context ts0 Key.getSyntacticDiagnostics
    (fileName, rest) st =
  (fst original,
   mkState (snd original)
           ((calls st ++ map (fun template => TemplateCall "getSyntacticDiagnostics" template [])
                             found)
            ++ [HostCall Key.getSyntacticDiagnostics])).
Proof.
  intros Hhook found produced original.
  rewrite compositeService_table. unfold wrapperFor. rewrite Hhook. cbn [option_map].
  unfold getSyntacticDiagnostics_wrapper. cbv zeta.
  unfold bind at 1. unfold getAllTemplates at 1. cbn [templateProvider].
  unfold bind at 1.
  rewrite (forOf_self_spread
             (fun template => TemplateCall "getSyntacticDiagnostics" template []) h).
  unfold bind, callHost, invoke, ret. cbn [world calls].
  subst original produced found.
  destruct (service context Key.getSyntacticDiagnostics _ _) as [diagnostics w2].
  rewrite app_nil_r. reflexivity.
Qed.

(** C3. getSemanticDiagnostics on the composite service.  For every
    document the result is the host's diagnostics followed by, for every
    Template of the document in order, the diagnostics of the hook for that
    Template, each with its start moved from local to global.  The hook is
    called once per Template and the host after them.  So when the document
    has a Template and the hook yields at least one item for each Template,
    the result is strictly longer than the host's own. *)
Theorem getSemanticDiagnostics_merges router provider context ts0 h
  (fileName : string) (rest : list JsValue) st :
  TemplateLanguageService.getSemanticDiagnostics router = Some h ->
  let found := templates provider (world st) fileName in
  let produced := perTemplate h found (world st) in
  let original :=
    service context Key.getSemanticDiagnostics (fileName, rest) (snd produced) in
  let result :=
    compositeService router provider context ts0 Key.getSemanticDiagnostics
      (fileName, rest) st in
  fst result =
    fst original ++
    flat_map (fun '(template, diagnostics) =>
                map (fun diagnostic =>
                       {| Diagnostic.start :=
                            Diagnostic.start diagnostic + Template.start template;
                          Diagnostic.length := Diagnostic.length diagnostic;
                          Diagnostic.code := Diagnostic.code diagnostic;
                          Diagnostic.messageText := Diagnostic.messageText diagnostic |})
                    diagnostics)
             (fst produced)
  /\ snd result =
     mkState (snd original)
             ((calls st ++ map (fun template => TemplateCall "getSemanticDiagnostics" template [])
                               found)
              ++ [HostCall Key.getSemanticDiagnostics])
  /\ (found <> [] ->
      (forall template w, In template found -> fst (h template w) <> []) ->
      (List.length (fst original) < List.length (fst result))%nat).
Proof.
  intros Hhook found produced original result.
  assert (Hrun : result =
    (fst original ++
     flat_map (fun '(template, diagnostics) =>
                 map (translateDiagnostic template) diagnostics) (fst produced),
     mkState (snd original)
       ((calls st ++ map (fun template => TemplateCall "getSemanticDiagnostics" template [])
                         found)
        ++ [HostCall Key.getSemanticDiagnostics]))).
  { subst result. rewrite compositeService_table. unfold wrapperFor.
    rewrite Hhook. cbn [option_map].
    unfold getSemanticDiagnostics_wrapper. cbv zeta.
    unfold bind at 1. unfold getAllTemplates at 1. cbn [templateProvider].
    unfold bind at 1.
    rewrite (forOf_perTemplate
               (fun template => TemplateCall "getSemanticDiagnostics" template [])
               h translateDiagnostic).
    - unfold bind, callHost, invoke, ret. cbn [world calls app].
      subst original produced found.
      destruct (service context Key.getSemanticDiagnostics _ _) as [diagnostics w2].
      reflexivity.
    - intros acc template st'. unfold bind, invoke, ret.
      destruct (h template (world st')) as [sub w1]. reflexivity. }
  rewrite Hrun. cbn [fst snd]. split; [reflexivity|]. split; [reflexivity|].
  intros Hsome Hyield. rewrite length_app.
  enough (0 < List.length
                (flat_map (fun '(template, diagnostics) =>
                             map (translateDiagnostic template) diagnostics)
                          (fst produced)))%nat by lia.
  subst produced. destruct found as [|template found']; [congruence|].
  cbn [perTemplate].
  pose proof (Hyield template (world st) (or_introl eq_refl)) as Hfirst.
  destruct (h template (world st)) as [sub w1].
  destruct (perTemplate h found' w1) as [others w2].
  cbn [fst flat_map]. rewrite length_app, length_map.
  destruct sub; [cbn in Hfirst; congruence|]. cbn. lia.
Qed.

(** The Templates a ranged request keeps are those of the document whose
    range [start,end) shares an offset with the requested range. *)
Lemma intersecting_templates (found : list Template.t) (gloStart gloEnd : Z) template :
  In template
     (List.filter (fun template => Template.intersectWith template gloStart gloEnd) found)
  <-> In template found /\
      exists o, gloStart <= o < gloEnd /\
                Template.start template <= o < Template.end_ template.
Proof. rewrite filter_In, intersectWith_true. reflexivity. Qed.

(** C4. getFormattingEditsForRange and getCodeFixesAtPosition on the
    composite service.  The hook is called exactly on the Templates of the
    document whose range [start,end) shares an offset with the requested
    global range, in order, with the range converted to local; a Template
    with no offset in common is skipped: no call, no item.  The result is the
    host's result followed by what the hook returned for the Templates it was
    called on, with the start of every text span moved to global: the span
    of each edit, and for a code fix the span of every text change of every
    file change of every action. *)
Theorem ranged_requests_merge_intersecting_templates router provider context ts0
  hFormat hFix (fileName : string) (gloStart gloEnd : Z) (errorCodes : list Z)
  (options preferences : JsValue) (rest : list JsValue) st :
  TemplateLanguageService.getFormattingEditsForRange router = Some hFormat ->
  TemplateLanguageService.getCodeFixesAtPosition router = Some hFix ->
  let found := templates provider (world st) fileName in
  let intersecting :=
    List.filter (fun template => Template.intersectWith template gloStart gloEnd) found in
  let toGlobal template (change : TextChange.t) :=
    {| TextChange.span :=
         match TextChange.span change with
         | Some span =>
             Some {| TextSpan.start := TextSpan.start span + Template.start template;
                     TextSpan.length := TextSpan.length span |}
         | None => None
         end;
       TextChange.newText := TextChange.newText change |} in
  (forall template,
      In template intersecting <->
      In template found /\
      exists o, gloStart <= o < gloEnd /\
                Template.start template <= o < Template.end_ template)
  /\
  (let args : ArgsOf Key.getFormattingEditsForRange :=
     ((fileName, gloStart, gloEnd, options), rest) in
   let produced :=
     perTemplate (fun template =>
                    hFormat template (gloStart - Template.start template)
                            (gloEnd - Template.start template) options)
                 intersecting (world st) in
   let original := service context Key.getFormattingEditsForRange args (snd produced) in
   compositeService router provider context ts0 Key.getFormattingEditsForRange args st =
   (fst original ++
    flat_map (fun '(template, changes) => map (toGlobal template) changes) (fst produced),
    mkState (snd original)
      ((calls st ++
        map (fun template =>
               TemplateCall "getFormattingEditsForRange" template
                 [gloStart - Template.start template; gloEnd - Template.start template])
            intersecting)
       ++ [HostCall Key.getFormattingEditsForRange])))
  /\
  (let args : ArgsOf Key.getCodeFixesAtPosition :=
     ((fileName, gloStart, gloEnd, errorCodes, options, preferences), rest) in
   let produced :=
     perTemplate (fun template =>
                    hFix template (gloStart - Template.start template)
                         (gloEnd - Template.start template) errorCodes options preferences)
                 intersecting (world st) in
   let original := service context Key.getCodeFixesAtPosition args (snd produced) in
   compositeService router provider context ts0 Key.getCodeFixesAtPosition args st =
   (fst original ++
    flat_map (fun '(template, actions) =>
                map (fun action =>
                       {| CodeFixAction.fixName := CodeFixAction.fixName action;
                          CodeFixAction.description := CodeFixAction.description action;
                          CodeFixAction.changes :=
                            map (fun change =>
                                   {| FileTextChanges.fileName :=
                                        FileTextChanges.fileName change;
                                      FileTextChanges.textChanges :=
                                        map (toGlobal template)
                                            (FileTextChanges.textChanges change) |})
                                (CodeFixAction.changes action) |})
                    actions)
             (fst produced),
    mkState (snd original)
      ((calls st ++
        map (fun template =>
               TemplateCall "getCodeFixesAtPosition" template
                 [gloStart - Template.start template; gloEnd - Template.start template])
            intersecting)
       ++ [HostCall Key.getCodeFixesAtPosition]))).
Proof.
  intros HhFormat HhFix found intersecting toGlobal.
  split; [intros template; apply intersecting_templates|]. split.
  - cbv zeta. rewrite compositeService_table. unfold wrapperFor.
    rewrite HhFormat. cbn [option_map].
    unfold getFormattingEditsForRange_wrapper. cbv zeta.
    unfold bind at 1. unfold getAllTemplates at 1. cbn [templateProvider].
    unfold bind at 1.
    rewrite (forOf_perTemplate_filter
               (fun template => Template.intersectWith template gloStart gloEnd)
               (fun template =>
                  TemplateCall "getFormattingEditsForRange" template
                    [gloStart - Template.start template; gloEnd - Template.start template])
               (fun template =>
                  hFormat template (gloStart - Template.start template)
                          (gloEnd - Template.start template) options)
               translateTextChange).
    + unfold bind, callHost, invoke, ret. cbn [world calls app].
      fold found. fold intersecting.
      destruct (service context Key.getFormattingEditsForRange _ _) as [changes w2].
      reflexivity.
    + intros acc template st'.
      destruct (Template.intersectWith template gloStart gloEnd); cbn [negb];
        [|reflexivity].
      unfold bind, invoke, Template.globalOffsetToLocal.
      destruct (hFormat template _ _ options (world st')) as [edits w1].
      rewrite forOf_push. reflexivity.
  - cbv zeta. rewrite compositeService_table. unfold wrapperFor.
    rewrite HhFix. cbn [option_map].
    unfold getCodeFixesAtPosition_wrapper. cbv zeta.
    unfold bind at 1. unfold getAllTemplates at 1. cbn [templateProvider].
    unfold bind at 1.
    rewrite (forOf_perTemplate_filter
               (fun template => Template.intersectWith template gloStart gloEnd)
               (fun template =>
                  TemplateCall "getCodeFixesAtPosition" template
                    [gloStart - Template.start template; gloEnd - Template.start template])
               (fun template =>
                  hFix template (gloStart - Template.start template)
                       (gloEnd - Template.start template) errorCodes options preferences)
               translateCodeFixAction).
    + unfold bind, callHost, invoke, ret. cbn [world calls app].
      fold found. fold intersecting.
      destruct (service context Key.getCodeFixesAtPosition _ _) as [actions w2].
      reflexivity.
    + intros acc template st'.
      destruct (Template.intersectWith template gloStart gloEnd); cbn [negb];
        [|reflexivity].
      unfold bind, invoke, Template.globalOffsetToLocal.
      destruct (hFix template _ _ errorCodes options preferences (world st'))
        as [fixes w1].
      rewrite forOf_push. reflexivity.
Qed.

(** getQuickInfoAtPosition inside a Template, by the hook the guard reads.
    With [getCompletionEntryDetails] implemented, the quick-info hook is
    called on the local offset and its result returned, the text span moved
    to global.  Without it, nothing is called and nothing is returned. *)
Lemma getQuickInfoAtPosition_in_template router provider context ts0 h template
  (fileName : string) (gloOffset : Z) (rest : list JsValue) st :
  TemplateLanguageService.getQuickInfoAtPosition router = Some h ->
  templateAt provider (world st) fileName gloOffset = Some template ->
  compositeService router provider context ts0 Key.getQuickInfoAtPosition
    ((fileName, gloOffset), rest) st =
  match TemplateLanguageService.getCompletionEntryDetails router with
  | Some _ =>
      let temOffset := gloOffset - Template.start template in
      let handled := h template temOffset (world st) in
      (option_map (translateQuickInfo template) (fst handled),
       mkState (snd handled)
               (calls st ++ [TemplateCall "getQuickInfoAtPosition" template [temOffset]]))
  | None => (None, st)
  end.
Proof.
  intros Hhook Hat. rewrite compositeService_table. unfold wrapperFor.
  rewrite Hhook. cbn [option_map]. unfold getQuickInfoAtPosition_wrapper.
  unfold bind at 1. unfold getTemplateAt. cbn [templateProvider templateService].
  rewrite Hat.
  destruct (TemplateLanguageService.getCompletionEntryDetails router); [|reflexivity].
  unfold bind, invoke, ret, Template.globalOffsetToLocal. cbv zeta.
  destruct (h template (gloOffset - Template.start template) (world st))
    as [[info|] w1]; reflexivity.
Qed.

(** C5. getQuickInfoAtPosition on the composite service, run on a template
    language service that implements [getQuickInfoAtPosition] and not
    [getCompletionEntryDetails]: at offset 10 of [a.ts], inside the Template
    at [7,16), the composite service returns nothing and calls nothing; the
    quick-info hook, which would answer for local offset 3, is not invoked. *)
Theorem getQuickInfoAtPosition_skipped_without_details_hook :
  is_Some (TemplateLanguageService.getQuickInfoAtPosition Fixture.routerWithoutDetails)
  /\ TemplateLanguageService.getCompletionEntryDetails Fixture.routerWithoutDetails = None
  /\ templateAt Fixture.provider (world Fixture.initial) "a.ts" 10 = Some Fixture.first
  /\ Fixture.compositeWithoutDetails Key.getQuickInfoAtPosition
       (("a.ts"%string, 10), []) Fixture.initial
     = (None, Fixture.initial)
  /\ Fixture.composite Key.getQuickInfoAtPosition (("a.ts"%string, 10), []) Fixture.initial
     = (Some {| QuickInfo.kind := "class";
                QuickInfo.kindModifiers := "";
                QuickInfo.textSpan := Some {| TextSpan.start := 9; TextSpan.length := 5 |};
                QuickInfo.displayParts := JsString "<Icon>";
                QuickInfo.documentation := JsUndefined |},
        mkState 1%nat [TemplateCall "getQuickInfoAtPosition" Fixture.first [3]]).
Proof.
  split; [eexists; reflexivity|]. repeat split; vm_compute; reflexivity.
Qed.

(** C2. getSyntacticDiagnostics on the composite service, run on [a.ts]: the
    hook is called on both Templates and yields one diagnostic for each, and
    the result holds the host's diagnostic alone.  The sibling operation
    getSemanticDiagnostics on the same document returns the host's
    diagnostic followed by the two template diagnostics at global offsets. *)
Theorem getSyntacticDiagnostics_drops_template_diagnostics :
  Fixture.composite Key.getSyntacticDiagnostics ("a.ts"%string, []) Fixture.initial
  = ([Fixture.hostDiagnostic],
     mkState 3%nat
       [TemplateCall "getSyntacticDiagnostics" Fixture.first [];
        TemplateCall "getSyntacticDiagnostics" Fixture.second [];
        HostCall Key.getSyntacticDiagnostics])
  /\ fst (Fixture.composite Key.getSemanticDiagnostics ("a.ts"%string, []) Fixture.initial)
     = [Fixture.hostDiagnostic;
        {| Diagnostic.start := 9; Diagnostic.length := 1; Diagnostic.code := 9002;
           Diagnostic.messageText := "Unknown binding." |};
        {| Diagnostic.start := 45; Diagnostic.length := 1; Diagnostic.code := 9002;
           Diagnostic.messageText := "Unknown binding." |}].
Proof. split; vm_compute; reflexivity. Qed.


(** One call of the enumeration the constructor leaves on [ts]: the codes of
    the enumeration found at construction, then the template codes as
    strings. *)
Lemma getSupportedCodeFixes_call router provider context ts0 h st :
  TemplateLanguageService.getSupportedCodeFixes router = Some h ->
  let original := ts.getSupportedCodeFixes ts0 st in
  let codes := h (world (snd original)) in
  ts.getSupportedCodeFixes
    (snd (new_TSLanguageServiceProxy router provider context ts0)) st =
  (fst original ++ map StringOf (fst codes),
   mkState (snd codes) (calls (snd original) ++ [TemplateRegistryCall])).
Proof.
  intros Hhook. unfold new_TSLanguageServiceProxy. cbv zeta. cbn [snd].
  unfold wrapGetSupportedCodeFixes. services. rewrite Hhook.
  cbn [ts.getSupportedCodeFixes]. unfold bind, invoke, ret.
  destruct (ts.getSupportedCodeFixes ts0 st) as [original st1]. cbn [fst snd].
  destruct (h (world st1)) as [codes w1]. reflexivity.
Qed.

(** C7. The constructor replaces the enumeration of supported fix codes once.
    When the enumeration found at construction always answers [hostCodes]
    and the template hook always answers [templateCodes], any number of
    calls in a row of the enumeration left on [ts] answer the same list each
    time: the host codes followed by the template codes as strings, the
    template codes appearing once. *)
Theorem getSupportedCodeFixes_same_list_each_call router provider context ts0 h
  (hostCodes : list string) (templateCodes : list Z) :
  TemplateLanguageService.getSupportedCodeFixes router = Some h ->
  (forall st, fst (ts.getSupportedCodeFixes ts0 st) = hostCodes) ->
  (forall w, fst (h w) = templateCodes) ->
  forall (n : nat) st,
    fst (callTimes n
           (ts.getSupportedCodeFixes
              (snd (new_TSLanguageServiceProxy router provider context ts0))) st)
    = repeat (hostCodes ++ map StringOf templateCodes) n.
Proof.
  intros Hhook Hhost Htemplate n.
  induction n as [|n IH]; intros st; [reflexivity|].
  cbn [callTimes repeat]. unfold bind at 1.
  rewrite (getSupportedCodeFixes_call router provider context ts0 h st Hhook).
  cbv zeta. unfold bind at 1.
  match goal with
  | |- context [callTimes n ?f ?st'] =>
      specialize (IH st'); destruct (callTimes n f st') as [others st2]
  end.
  cbn [fst] in IH. unfold ret. cbn [fst].
  rewrite Hhost, Htemplate, IH. reflexivity.
Qed.


(** C9. The interception of find-references.  The constructor registers it
    under the host's key [findReferences] exactly when the template language
    service implements the hook [getReferencesAtPosition]; nothing is
    registered under a key named after the hook.  When the hook is
    implemented and a Template contains the offset, the one external call
    made is the hook, on that Template and the local offset, and its symbols
    are returned with the text span of each definition moved to global; the
    host is not called. *)
Theorem findReferences_wraps_getReferencesAtPosition router provider context ts0
  (fileName : string) (gloOffset : Z) (rest : list JsValue) st :
  let this := fst (new_TSLanguageServiceProxy router provider context ts0) in
  let args : ArgsOf Key.findReferences := ((fileName, gloOffset), rest) in
  (In Key.findReferences (wrappedNames this)
   <-> is_Some (TemplateLanguageService.getReferencesAtPosition router))
  /\ ~ In (Key.other "getReferencesAtPosition") (wrappedNames this)
  /\ (forall h template,
        TemplateLanguageService.getReferencesAtPosition router = Some h ->
        templateAt provider (world st) fileName gloOffset = Some template ->
        let temOffset := gloOffset - Template.start template in
        let handled := h template temOffset (world st) in
        compositeService router provider context ts0 Key.findReferences args st =
        (match fst handled with
         | Some symbols =>
             Some (map (fun symbol =>
                          let definition := ReferencedSymbol.definition symbol in
                          {| ReferencedSymbol.definition :=
                               {| ReferencedSymbolDefinitionInfo.fileName :=
                                    ReferencedSymbolDefinitionInfo.fileName definition;
                                  ReferencedSymbolDefinitionInfo.textSpan :=
                                    match ReferencedSymbolDefinitionInfo.textSpan definition with
                                    | Some span =>
                                        Some {| TextSpan.start :=
                                                  TextSpan.start span + Template.start template;
                                                TextSpan.length := TextSpan.length span |}
                                    | None => None
                                    end;
                                  ReferencedSymbolDefinitionInfo.name :=
                                    ReferencedSymbolDefinitionInfo.name definition;
                                  ReferencedSymbolDefinitionInfo.displayParts :=
                                    ReferencedSymbolDefinitionInfo.displayParts definition |};
                             ReferencedSymbol.references :=
                               ReferencedSymbol.references symbol |})
                       symbols)
         | None => None
         end,
         mkState (snd handled)
                 (calls st ++ [TemplateCall "getReferencesAtPosition" template [temOffset]]))).
Proof.
  intros this args. subst this. split; [|split].
  - rewrite wrappedNames_table. cbn [implementsHookFor].
    exact (bool_decide_eq_true _).
  - rewrite wrappedNames_table. cbn [implementsHookFor]. discriminate.
  - intros h template Hhook Hat. cbv zeta.
    rewrite compositeService_table. unfold wrapperFor. rewrite Hhook.
    cbn [option_map]. unfold findReferences_wrapper, args.
    unfold bind at 1. unfold getTemplateAt. cbn [templateProvider]. rewrite Hat.
    unfold bind, invoke, ret, Template.globalOffsetToLocal.
    destruct (h template (gloOffset - Template.start template) (world st))
      as [[symbols|] w1]; reflexivity.
Qed.

End Properties.

(** ** The completion service *)

Section CompletionProperties.

Context {TemplatePart TemplatePartLocation : Type}.
Variable TemplatePart_start : TemplatePart -> Z.
Variable TemplatePart_end : TemplatePart -> Z.
Variable getScriptElementKind :
  CompletionItem.t -> TemplatePart -> TemplatePartLocation -> ScriptElementKind.

(** What the filter keeps has a name outside the set it started with. *)
Lemma filterRepetitive_fresh (names : gset string) (entries : list CompletionEntry.t)
  entry :
  In entry (filterWith keepUnlessRepetitive names entries) ->
  CompletionEntry.name entry ∉ names.
Proof.
  revert names. induction entries as [|first rest IH]; intros names; cbn; [tauto|].
  unfold keepUnlessRepetitive. case_bool_decide as Hseen.
  - apply IH.
  - intros [<- | Hin]; [exact Hseen|].
    apply IH in Hin. set_solver.
Qed.

(** What the filter keeps is part of what it was given. *)
Lemma filterRepetitive_In (names : gset string) (entries : list CompletionEntry.t)
  entry :
  In entry (filterWith keepUnlessRepetitive names entries) -> In entry entries.
Proof.
  revert names. induction entries as [|first rest IH]; intros names; cbn; [tauto|].
  unfold keepUnlessRepetitive. case_bool_decide as Hseen.
  - intros Hin. right. exact (IH _ Hin).
  - intros [<- | Hin]; [left; reflexivity | right; exact (IH _ Hin)].
Qed.

(** No two entries the filter keeps share a name. *)
Lemma filterRepetitive_NoDup (names : gset string) (entries : list CompletionEntry.t) :
  List.NoDup (map CompletionEntry.name (filterWith keepUnlessRepetitive names entries)).
Proof.
  revert names. induction entries as [|first rest IH]; intros names; cbn.
  - constructor.
  - unfold keepUnlessRepetitive. case_bool_decide as Hseen; [apply IH|].
    cbn. constructor; [|apply IH].
    intros Hin. apply in_map_iff in Hin. destruct Hin as (entry & Hname & Hin).
    apply filterRepetitive_fresh in Hin. set_solver.
Qed.

(** Every name the filter is shown is in the set it started with or on an
    entry it keeps. *)
Lemma filterRepetitive_covers (names : gset string) (entries : list CompletionEntry.t)
  entry :
  In entry entries ->
  CompletionEntry.name entry ∈ names \/
  In (CompletionEntry.name entry)
     (map CompletionEntry.name (filterWith keepUnlessRepetitive names entries)).
Proof.
  revert names. induction entries as [|first rest IH]; intros names; cbn; [tauto|].
  unfold keepUnlessRepetitive. case_bool_decide as Hseen.
  - intros [<- | Hin]; [left; exact Hseen | apply IH; exact Hin].
  - cbn. intros [<- | Hin]; [right; left; reflexivity|].
    destruct (IH ({[CompletionEntry.name first]} ∪ names) Hin) as [Helem | Hkept].
    + apply elem_of_union in Helem. destruct Helem as [Hsame | Hold].
      * apply elem_of_singleton in Hsame. right. left. symmetry. exact Hsame.
      * left. exact Hold.
    + right. right. exact Hkept.
Qed.

(** An entry the filter keeps is the first one of its name in the list. *)
Lemma filterRepetitive_first (names : gset string) (entries : list CompletionEntry.t)
  entry :
  In entry (filterWith keepUnlessRepetitive names entries) ->
  find (fun other => String.eqb (CompletionEntry.name other) (CompletionEntry.name entry))
       entries = Some entry.
Proof.
  revert names. induction entries as [|first rest IH]; intros names; cbn; [tauto|].
  unfold keepUnlessRepetitive. case_bool_decide as Hseen.
  - intros Hin. pose proof (filterRepetitive_fresh _ _ _ Hin) as Hfresh.
    destruct (String.eqb_spec (CompletionEntry.name first) (CompletionEntry.name entry))
      as [Heq | Hne].
    + rewrite Heq in Hseen. contradiction.
    + exact (IH _ Hin).
  - intros [<- | Hin]; [rewrite String.eqb_refl; reflexivity|].
    pose proof (filterRepetitive_fresh _ _ _ Hin) as Hfresh.
    destruct (String.eqb_spec (CompletionEntry.name first) (CompletionEntry.name entry))
      as [Heq | Hne].
    + exfalso. apply Hfresh. rewrite <- Heq. set_solver.
    + exact (IH _ Hin).
Qed.

(** C10. Every completion result built by [makeCompletionInfo] from a list
    of items has entries with pairwise distinct names: an entry that is
    returned is the first entry of its name among those made from the items,
    every name of an item is the name of a returned entry, and the sort text
    and the insert text of a returned entry are its name. *)
Theorem makeCompletionInfo_distinct_names (items : list CompletionItem.t)
  (part : TemplatePart) (location : TemplatePartLocation) :
  exists info,
    makeCompletionInfo TemplatePart_start TemplatePart_end getScriptElementKind
      (Some items) part location = Some info
    /\ List.NoDup (map CompletionEntry.name (CompletionInfo.entries info))
    /\ (forall entry,
          In entry (CompletionInfo.entries info) ->
          find (fun other =>
                  String.eqb (CompletionEntry.name other) (CompletionEntry.name entry))
               (map (makeCompletionEntry TemplatePart_start TemplatePart_end
                       getScriptElementKind part location) items)
          = Some entry)
    /\ (forall item,
          In item items ->
          In (CompletionItem.name item)
             (map CompletionEntry.name (CompletionInfo.entries info)))
    /\ (forall entry,
          In entry (CompletionInfo.entries info) ->
          CompletionEntry.sortText entry = CompletionEntry.name entry
          /\ CompletionEntry.insertText entry = Some (CompletionEntry.name entry)).
Proof.
  eexists. split; [reflexivity|]. cbn [CompletionInfo.entries].
  split; [apply filterRepetitive_NoDup|].
  split; [intros entry; apply filterRepetitive_first|].
  split.
  - intros item Hin.
    destruct (filterRepetitive_covers ∅
                (map (makeCompletionEntry TemplatePart_start TemplatePart_end
                        getScriptElementKind part location) items)
                (makeCompletionEntry TemplatePart_start TemplatePart_end
                   getScriptElementKind part location item))
      as [Hempty | Hkept].
    + apply in_map. exact Hin.
    + set_solver.
    + exact Hkept.
  - intros entry Hin. apply filterRepetitive_In in Hin.
    apply in_map_iff in Hin. destruct Hin as (item & <- & _).
    split; reflexivity.
Qed.

End CompletionProperties.

(** ** The theorems at work on the project [Fixture] *)

(** C1 on [a.ts]: offset 0 lies in no Template, offset 10 in the first. *)
Lemma getCompletionsAtPosition_replaces_witness :
  Fixture.composite Key.getCompletionsAtPosition (("a.ts"%string, 0, JsUndefined), [])
    Fixture.initial
  = callHost Fixture.host Key.getCompletionsAtPosition
      (("a.ts"%string, 0, JsUndefined), []) Fixture.initial
  /\ Fixture.composite Key.getCompletionsAtPosition (("a.ts"%string, 10, JsUndefined), [])
       Fixture.initial
     = (Some {| CompletionInfo.isGlobalCompletion := false;
                CompletionInfo.isMemberCompletion := false;
                CompletionInfo.isNewIdentifierLocation := false;
                CompletionInfo.entries :=
                  [ Fixture.templateEntry "@click"
                      (Some {| TextSpan.start := 8; TextSpan.length := 3 |});
                    Fixture.templateEntry "@change" None ] |},
        mkState 1%nat [TemplateCall "getCompletionsAtPosition" Fixture.first [3]]).
Proof.
  split.
  - apply (proj1 (getCompletionsAtPosition_replaces Fixture.router Fixture.provider
                    Fixture.context Fixture.hostTs "a.ts" 0 JsUndefined []
                    Fixture.initial)).
    intros template [<- | [<- | []]]; cbn; lia.
  - exact (proj2 (getCompletionsAtPosition_replaces Fixture.router Fixture.provider
                    Fixture.context Fixture.hostTs "a.ts" 10 JsUndefined []
                    Fixture.initial)
                 (fun _ _ _ w => (Some Fixture.templateInfo, S w)) Fixture.first
                 eq_refl eq_refl).
Defined.

(** C3 on [a.ts]: one host diagnostic, one more for each of the two
    Templates. *)
Lemma getSemanticDiagnostics_merges_witness :
  fst (Fixture.composite Key.getSemanticDiagnostics ("a.ts"%string, []) Fixture.initial)
  = [ Fixture.hostDiagnostic;
      {| Diagnostic.start := 9; Diagnostic.length := 1; Diagnostic.code := 9002;
         Diagnostic.messageText := "Unknown binding." |};
      {| Diagnostic.start := 45; Diagnostic.length := 1; Diagnostic.code := 9002;
         Diagnostic.messageText := "Unknown binding." |} ]
  /\ (1 < List.length
            (fst (Fixture.composite Key.getSemanticDiagnostics ("a.ts"%string, [])
                    Fixture.initial)))%nat.
Proof.
  destruct (getSemanticDiagnostics_merges Fixture.router Fixture.provider
              Fixture.context Fixture.hostTs
              (fun _ w => ([Fixture.templateDiagnostic 9002], S w))
              "a.ts" [] Fixture.initial eq_refl)
    as (Hresult & _ & Hlonger).
  split; [exact Hresult|].
  apply Hlonger; [discriminate|]. intros template w _. discriminate.
Defined.

(** C4 on [a.ts] for the requested range [0,10): the first Template, at
    [7,16), is asked; the second, at [43,52), is not. *)
Lemma ranged_requests_merge_intersecting_templates_witness :
  Fixture.composite Key.getFormattingEditsForRange
    (("a.ts"%string, 0, 10, JsUndefined), []) Fixture.initial
  = ([ Fixture.hostChange;
       {| TextChange.span := Some {| TextSpan.start := 7; TextSpan.length := 2 |};
          TextChange.newText := "" |} ],
     mkState 2%nat
       [ TemplateCall "getFormattingEditsForRange" Fixture.first [-7; 3];
         HostCall Key.getFormattingEditsForRange ])
  /\ snd (Fixture.composite Key.getCodeFixesAtPosition
            (("a.ts"%string, 0, 10, [9001], JsUndefined, JsUndefined), [])
            Fixture.initial)
     = mkState 2%nat
         [ TemplateCall "getCodeFixesAtPosition" Fixture.first [-7; 3];
           HostCall Key.getCodeFixesAtPosition ].
Proof.
  destruct (ranged_requests_merge_intersecting_templates Fixture.router
              Fixture.provider Fixture.context Fixture.hostTs
              (fun _ _ _ _ w => ([Fixture.templateChange 0], S w))
              (fun _ _ _ _ _ _ w => ([Fixture.templateAction], S w))
              "a.ts" 0 10 [9001] JsUndefined JsUndefined [] Fixture.initial
              eq_refl eq_refl)
    as (_ & Hformat & Hfix).
  split; [exact Hformat|]. exact (f_equal snd Hfix).
Defined.


(** C7 on the project: three calls in a row of the enumeration. *)
Lemma getSupportedCodeFixes_same_list_each_call_witness :
  fst (callTimes 3
         (ts.getSupportedCodeFixes
            (snd (new_TSLanguageServiceProxy Fixture.router Fixture.provider
                    Fixture.context Fixture.hostTs)))
         Fixture.initial)
  = [ ["1003"; "2304"; "9001"; "9002"];
      ["1003"; "2304"; "9001"; "9002"];
      ["1003"; "2304"; "9001"; "9002"] ]%string.
Proof.
  exact (getSupportedCodeFixes_same_list_each_call Fixture.router Fixture.provider
           Fixture.context Fixture.hostTs (fun w => ([9001; 9002], S w))
           ["1003"; "2304"]%string [9001; 9002]
           eq_refl (fun _ => eq_refl) (fun _ => eq_refl) 3%nat Fixture.initial).
Defined.

(** C9 on [a.ts]: find-references at offset 10, inside the first Template. *)
Lemma findReferences_wraps_getReferencesAtPosition_witness :
  Fixture.composite Key.findReferences (("a.ts"%string, 10), []) Fixture.initial
  = (Some [ {| ReferencedSymbol.definition :=
                 {| ReferencedSymbolDefinitionInfo.fileName := "a.ts";
                    ReferencedSymbolDefinitionInfo.textSpan :=
                      Some {| TextSpan.start := 10; TextSpan.length := 4 |};
                    ReferencedSymbolDefinitionInfo.name := "Icon";
                    ReferencedSymbolDefinitionInfo.displayParts := JsUndefined |};
               ReferencedSymbol.references := JsUndefined |} ],
     mkState 1%nat [TemplateCall "getReferencesAtPosition" Fixture.first [3]]).
Proof.
  exact (proj2 (proj2 (findReferences_wraps_getReferencesAtPosition Fixture.router
                         Fixture.provider Fixture.context Fixture.hostTs
                         "a.ts" 10 [] Fixture.initial))
               (fun _ _ w => (Some [Fixture.templateSymbol], S w)) Fixture.first
               eq_refl eq_refl).
Defined.

(** C10 on three items of which two are named [click]: two entries remain,
    the first [click] and [change]. *)
Lemma makeCompletionInfo_distinct_names_witness :
  exists info,
    makeCompletionInfo Fixture.partStart Fixture.partEnd Fixture.scriptElementKind
      (Some Fixture.items) (20, 25) tt = Some info
    /\ map CompletionEntry.name (CompletionInfo.entries info) = ["click"; "change"]%string
    /\ List.NoDup (map CompletionEntry.name (CompletionInfo.entries info)).
Proof.
  destruct (makeCompletionInfo_distinct_names Fixture.partStart Fixture.partEnd
              Fixture.scriptElementKind Fixture.items (20, 25) tt)
    as (info & Hmade & Hdistinct & _).
  exists info. split; [exact Hmade|]. split; [|exact Hdistinct].
  vm_compute in Hmade. injection Hmade as <-. reflexivity.
Defined.

(** * Further properties of the decoration layer *)

Section DecorationProperties.

Context {W : Type}.

Implicit Types (this : @TSLanguageServiceProxy W) (st : State W)
  (template : Template.t) (router : TemplateLanguageService.t W)
  (provider : @TemplateProvider W) (context : @ProjectContext W).

(** Unfold one wrapper of a position operation up to the Template lookup. *)
Local Ltac at_position Hat :=
  unfold bind at 1; unfold getTemplateAt; cbn [templateProvider templateService];
  rewrite Hat.

(** X1. The four position operations whose result carries no offset of the
    Template: getCompletionEntryDetails, getDefinitionAtPosition,
    getDefinitionAndBoundSpan and getJsxClosingTagAtPosition.  With no
    Template at the offset each is the host's call.  With the hook
    implemented and a Template at the offset, the call is the hook's call on
    the Template and the local offset, the other arguments as given; its
    result is returned as it is, and the host is not called. *)
Theorem untranslated_position_operations_replace router provider context ts0
  (fileName : string) (gloOffset : Z) (entryName : string) (options : JsValue)
  (rest : list JsValue) st :
  let composite := compositeService router provider context ts0 in
  let host := callHost (service context) in
  ((forall template, In template (templates provider (world st) fileName) ->
      ~ (Template.start template <= gloOffset < Template.end_ template)) ->
   composite Key.getCompletionEntryDetails ((fileName, gloOffset, entryName, options), rest) st
   = host Key.getCompletionEntryDetails ((fileName, gloOffset, entryName, options), rest) st
   /\ composite Key.getDefinitionAtPosition ((fileName, gloOffset), rest) st
      = host Key.getDefinitionAtPosition ((fileName, gloOffset), rest) st
   /\ composite Key.getDefinitionAndBoundSpan ((fileName, gloOffset), rest) st
      = host Key.getDefinitionAndBoundSpan ((fileName, gloOffset), rest) st
   /\ composite Key.getJsxClosingTagAtPosition ((fileName, gloOffset), rest) st
      = host Key.getJsxClosingTagAtPosition ((fileName, gloOffset), rest) st)
  /\
  (forall template,
     templateAt provider (world st) fileName gloOffset = Some template ->
     let temOffset := gloOffset - Template.start template in
     (forall h,
         TemplateLanguageService.getCompletionEntryDetails router = Some h ->
         composite Key.getCompletionEntryDetails
           ((fileName, gloOffset, entryName, options), rest) st
         = invoke (TemplateCall "getCompletionEntryDetails" template [temOffset])
                  (h template temOffset entryName options) st)
     /\ (forall h,
           TemplateLanguageService.getDefinitionAtPosition router = Some h ->
           composite Key.getDefinitionAtPosition ((fileName, gloOffset), rest) st
           = invoke (TemplateCall "getDefinitionAtPosition" template [temOffset])
                    (h template temOffset) st)
     /\ (forall h,
           TemplateLanguageService.getDefinitionAndBoundSpan router = Some h ->
           composite Key.getDefinitionAndBoundSpan ((fileName, gloOffset), rest) st
           = invoke (TemplateCall "getDefinitionAndBoundSpan" template [temOffset])
                    (h template temOffset) st)
     /\ (forall h,
           TemplateLanguageService.getJsxClosingTagAtPosition router = Some h ->
           composite Key.getJsxClosingTagAtPosition ((fileName, gloOffset), rest) st
           = invoke (TemplateCall "getJsxClosingTagAtPosition" template [temOffset])
                    (h template temOffset) st)).
Proof.
  intros composite host. subst composite host. split.
  - intros Hnone. apply templateAt_None in Hnone.
    repeat split; rewrite compositeService_table; unfold wrapperFor;
      match goal with
      | |- context [option_map _ ?hook] => destruct hook as [h|]
      end;
      try reflexivity; cbn [option_map].
    + unfold getCompletionEntryDetails_wrapper. at_position Hnone. reflexivity.
    + unfold getDefinitionAtPosition_wrapper. at_position Hnone. reflexivity.
    + unfold getDefinitionAndBoundSpan_wrapper. at_position Hnone. reflexivity.
    + unfold getJsxClosingTagAtPosition_wrapper. at_position Hnone. reflexivity.
  - intros template Hat. cbv zeta.
    repeat split; intros h Hhook; rewrite compositeService_table; unfold wrapperFor;
      rewrite Hhook; cbn [option_map].
    + unfold getCompletionEntryDetails_wrapper. at_position Hat. rewrite Hhook.
      unfold bind, invoke, ret, Template.globalOffsetToLocal.
      destruct (h template _ entryName options (world st)) as [entry w1]. reflexivity.
    + unfold getDefinitionAtPosition_wrapper. at_position Hat.
      unfold bind, invoke, ret, Template.globalOffsetToLocal.
      destruct (h template _ (world st)) as [definitions w1]. reflexivity.
    + unfold getDefinitionAndBoundSpan_wrapper. at_position Hat.
      unfold bind, invoke, ret, Template.globalOffsetToLocal.
      destruct (h template _ (world st)) as [definitions w1]. reflexivity.
    + unfold getJsxClosingTagAtPosition_wrapper. at_position Hat.
      unfold bind, invoke, ret, Template.globalOffsetToLocal.
      destruct (h template _ (world st)) as [info w1]. reflexivity.
Qed.

(** X2. Signature help.  The constructor registers the wrapper under the
    host's key [getSignatureHelpItems] exactly when the template language
    service implements the hook [getSignatureHelpItemsAtPosition].  With no
    Template at the offset the call is the host's call.  With the hook
    implemented and a Template at the offset, the one external call is the
    hook on the local offset and the options, and its items are returned with
    the start of the applicable span moved to global and every other field
    kept; the host is not called. *)
Theorem getSignatureHelpItems_replaces router provider context ts0
  (fileName : string) (gloOffset : Z) (options : JsValue) (rest : list JsValue) st :
  let args : ArgsOf Key.getSignatureHelpItems := ((fileName, gloOffset, options), rest) in
  let composite := compositeService router provider context ts0 Key.getSignatureHelpItems in
  (In Key.getSignatureHelpItems
      (wrappedNames (fst (new_TSLanguageServiceProxy router provider context ts0)))
   <-> is_Some (TemplateLanguageService.getSignatureHelpItemsAtPosition router))
  /\
  ((forall template, In template (templates provider (world st) fileName) ->
      ~ (Template.start template <= gloOffset < Template.end_ template)) ->
   composite args st = callHost (service context) Key.getSignatureHelpItems args st)
  /\
  (forall h template,
     TemplateLanguageService.getSignatureHelpItemsAtPosition router = Some h ->
     templateAt provider (world st) fileName gloOffset = Some template ->
     let temOffset := gloOffset - Template.start template in
     let handled := h template temOffset options (world st) in
     composite args st =
     (match fst handled with
      | Some items =>
          Some {| SignatureHelpItems.items := SignatureHelpItems.items items;
                  SignatureHelpItems.applicableSpan :=
                    match SignatureHelpItems.applicableSpan items with
                    | Some span =>
                        Some {| TextSpan.start := TextSpan.start span + Template.start template;
                                TextSpan.length := TextSpan.length span |}
                    | None => None
                    end;
                  SignatureHelpItems.selectedItemIndex :=
                    SignatureHelpItems.selectedItemIndex items;
                  SignatureHelpItems.argumentIndex := SignatureHelpItems.argumentIndex items;
                  SignatureHelpItems.argumentCount := SignatureHelpItems.argumentCount items |}
      | None => None
      end,
      mkState (snd handled)
              (calls st ++
               [TemplateCall "getSignatureHelpItemsAtPosition" template [temOffset]]))).
Proof.
  intros args composite. subst composite. split; [|split].
  - rewrite wrappedNames_table. cbn [implementsHookFor].
    exact (bool_decide_eq_true _).
  - intros Hnone. apply templateAt_None in Hnone.
    rewrite compositeService_table. unfold wrapperFor.
    destruct (TemplateLanguageService.getSignatureHelpItemsAtPosition router) as [h|];
      [|reflexivity].
    cbn [option_map]. unfold getSignatureHelpItems_wrapper, args.
    at_position Hnone. reflexivity.
  - intros h template Hhook Hat. cbv zeta.
    rewrite compositeService_table. unfold wrapperFor. rewrite Hhook.
    cbn [option_map]. unfold getSignatureHelpItems_wrapper, args.
    at_position Hat.
    unfold bind, invoke, ret, Template.globalOffsetToLocal.
    destruct (h template (gloOffset - Template.start template) options (world st))
      as [[items|] w1]; reflexivity.
Qed.


(** X4. A request that names a document without Templates is answered by
    the host alone, whatever the template language service implements: for
    every key, the call on the composite service is the host's call, with
    the same result, the same world and one host call logged. *)
Theorem document_without_templates_is_served_by_host router provider context ts0
  (k : Key.t) (args : ArgsOf k) st :
  (forall fileName, requestedFile k args = Some fileName ->
                    templates provider (world st) fileName = []) ->
  compositeService router provider context ts0 k args st
  = callHost (service context) k args st.
Proof.
  rewrite compositeService_table. unfold wrapperFor.
  destruct k; try reflexivity;
    match goal with
    | |- context [option_map _ ?hook] => destruct hook as [h|]
    end;
    try reflexivity; cbn [option_map]; unfold ArgsOf, ParamsOf in args;
    repeat match goal with
           | p : (_ * _)%type |- _ => destruct p
           end;
    cbn [requestedFile]; intros Hnone;
    match goal with
    | H : forall fileName, Some ?f = Some fileName -> _ |- _ =>
        specialize (H f eq_refl)
    end.
  all: unfold getCompletionsAtPosition_wrapper, getCompletionEntryDetails_wrapper,
         getQuickInfoAtPosition_wrapper, getDefinitionAtPosition_wrapper,
         getDefinitionAndBoundSpan_wrapper, getSyntacticDiagnostics_wrapper,
         getSemanticDiagnostics_wrapper, getFormattingEditsForRange_wrapper,
         getCodeFixesAtPosition_wrapper, getSignatureHelpItems_wrapper,
         getOutliningSpans_wrapper, findReferences_wrapper,
         getJsxClosingTagAtPosition_wrapper;
       cbv zeta; unfold bind at 1;
       unfold getTemplateAt, templateAt, getAllTemplates;
       cbn [templateProvider]; rewrite Hnone; cbn [find forOf];
       try reflexivity.
  all: unfold bind, ret, callHost, invoke;
       destruct (service _ _ _ _) as [original w1];
       rewrite app_nil_r; reflexivity.
Qed.

(** X5. A template language service that implements no hook leaves the host
    untouched: the constructor registers no wrapper and returns the [ts]
    module object it was given, and under every key the decorated service
    offers the host's own function. *)
Theorem hookless_template_service_changes_nothing router provider context ts0 :
  (forall k : Key.t, implementsHookFor router k = false) ->
  TemplateLanguageService.getSupportedCodeFixes router = None ->
  new_TSLanguageServiceProxy router provider context ts0
  = ({| context := context;
        templateService := router;
        templateProvider := provider;
        wrappers := [] |}, ts0)
  /\ forall k : Key.t,
       compositeService router provider context ts0 k = callHost (service context) k.
Proof.
  intros Hnone Hcodes.
  assert (Hhook : forall (A : Type) (hook : option A),
             bool_decide (is_Some hook) = false -> hook = None).
  { intros A [a|] Hdec; [|reflexivity].
    apply bool_decide_eq_false in Hdec. destruct Hdec. eexists. reflexivity. }
  pose proof (Hhook _ _ (Hnone Key.getCompletionsAtPosition)) as H1.
  pose proof (Hhook _ _ (Hnone Key.getCompletionEntryDetails)) as H2.
  pose proof (Hhook _ _ (Hnone Key.getQuickInfoAtPosition)) as H3.
  pose proof (Hhook _ _ (Hnone Key.getDefinitionAtPosition)) as H4.
  pose proof (Hhook _ _ (Hnone Key.getDefinitionAndBoundSpan)) as H5.
  pose proof (Hhook _ _ (Hnone Key.getSyntacticDiagnostics)) as H6.
  pose proof (Hhook _ _ (Hnone Key.getSemanticDiagnostics)) as H7.
  pose proof (Hhook _ _ (Hnone Key.getFormattingEditsForRange)) as H8.
  pose proof (Hhook _ _ (Hnone Key.getCodeFixesAtPosition)) as H9.
  pose proof (Hhook _ _ (Hnone Key.getSignatureHelpItems)) as H10.
  pose proof (Hhook _ _ (Hnone Key.getOutliningSpans)) as H11.
  pose proof (Hhook _ _ (Hnone Key.findReferences)) as H12.
  pose proof (Hhook _ _ (Hnone Key.getJsxClosingTagAtPosition)) as H13.
  cbn [implementsHookFor] in *. split.
  - unfold new_TSLanguageServiceProxy. cbv zeta.
    unfold wrapGetCompletionsAtPosition. cbn [templateService]. rewrite H1.
    unfold wrapGetCompletionEntryDetails. cbn [templateService]. rewrite H2.
    unfold wrapGetQuickInfoAtPosition. cbn [templateService]. rewrite H3.
    unfold wrapGetDefinitionAtPosition. cbn [templateService]. rewrite H4.
    unfold wrapGetDefinitionAndBoundSpan. cbn [templateService]. rewrite H5.
    unfold wrapGetSemanticDiagnostics. cbn [templateService]. rewrite H7.
    unfold wrapGetSyntacticDiagnostics. cbn [templateService]. rewrite H6.
    unfold wrapGetFormattingEditsForRange. cbn [templateService]. rewrite H8.
    unfold wrapGetCodeFixesAtPosition. cbn [templateService]. rewrite H9.
    unfold wrapGetSupportedCodeFixes. cbn [templateService]. rewrite Hcodes.
    unfold wrapGetSignatureHelpItemsAtPosition. cbn [templateService]. rewrite H10.
    unfold wrapGetOutliningSpans. cbn [templateService]. rewrite H11.
    unfold wrapGetReferencesAtPosition. cbn [templateService]. rewrite H12.
    unfold wrapGetJsxClosingTagAtPosition. cbn [templateService]. rewrite H13.
    reflexivity.
  - intros k. rewrite compositeService_table. unfold wrapperFor.
    destruct k; cbn [option_map];
      rewrite ?H1, ?H2, ?H3, ?H4, ?H5, ?H6, ?H7, ?H8, ?H9, ?H10, ?H11, ?H12, ?H13;
      reflexivity.
Qed.

(** A construction step extends the list of wrapped keys by at most its own
    key, at the end. *)
Lemma step_sublist (step : @TSLanguageServiceProxy W -> TSLanguageServiceProxy)
  (k : Key.t) this (order : list Key.t) :
  (forall this, step this = this \/ exists w, step this = wrap this k w) ->
  sublist (wrappedNames this) order ->
  sublist (wrappedNames (step this)) (order ++ [k]).
Proof.
  intros Hstep Hsub. destruct (Hstep this) as [-> | [w ->]].
  - apply sublist_inserts_r. exact Hsub.
  - unfold wrappedNames, wrap. cbn [wrappers]. rewrite map_app.
    apply sublist_app; [exact Hsub | reflexivity].
Qed.

(** X6. The constructor registers every key at most once, in the order of
    its fourteen steps: the wrapped keys form a duplicate-free list that is
    the list below with some keys left out. *)
Theorem constructor_registers_each_key_once router provider context ts0 :
  let registered :=
    wrappedNames (fst (new_TSLanguageServiceProxy router provider context ts0)) in
  sublist registered
    [ Key.getCompletionsAtPosition; Key.getCompletionEntryDetails;
      Key.getQuickInfoAtPosition; Key.getDefinitionAtPosition;
      Key.getDefinitionAndBoundSpan; Key.getSemanticDiagnostics;
      Key.getSyntacticDiagnostics; Key.getFormattingEditsForRange;
      Key.getCodeFixesAtPosition; Key.getSignatureHelpItems;
      Key.getOutliningSpans; Key.findReferences; Key.getJsxClosingTagAtPosition ]
  /\ List.NoDup registered.
Proof.
  intros registered.
  assert (Hsub : sublist registered
            (((((((((((((([] ++ [Key.getCompletionsAtPosition])
              ++ [Key.getCompletionEntryDetails]) ++ [Key.getQuickInfoAtPosition])
              ++ [Key.getDefinitionAtPosition]) ++ [Key.getDefinitionAndBoundSpan])
              ++ [Key.getSemanticDiagnostics]) ++ [Key.getSyntacticDiagnostics])
              ++ [Key.getFormattingEditsForRange]) ++ [Key.getCodeFixesAtPosition])
              ++ [Key.getSignatureHelpItems]) ++ [Key.getOutliningSpans])
              ++ [Key.findReferences]) ++ [Key.getJsxClosingTagAtPosition]))).
  { subst registered. unfold new_TSLanguageServiceProxy. cbv zeta. cbn [fst].
    apply step_sublist; [apply wrapGetJsxClosingTagAtPosition_step|].
    apply step_sublist; [apply wrapGetReferencesAtPosition_step|].
    apply step_sublist; [apply wrapGetOutliningSpans_step|].
    apply step_sublist; [apply wrapGetSignatureHelpItemsAtPosition_step|].
    apply step_sublist; [apply wrapGetCodeFixesAtPosition_step|].
    apply step_sublist; [apply wrapGetFormattingEditsForRange_step|].
    apply step_sublist; [apply wrapGetSyntacticDiagnostics_step|].
    apply step_sublist; [apply wrapGetSemanticDiagnostics_step|].
    apply step_sublist; [apply wrapGetDefinitionAndBoundSpan_step|].
    apply step_sublist; [apply wrapGetDefinitionAtPosition_step|].
    apply step_sublist; [apply wrapGetQuickInfoAtPosition_step|].
    apply step_sublist; [apply wrapGetCompletionEntryDetails_step|].
    apply step_sublist; [apply wrapGetCompletionsAtPosition_step|].
    reflexivity. }
  cbn [app] in Hsub. split; [exact Hsub|].
  apply NoDup_ListNoDup. eapply sublist_NoDup; [|exact Hsub].
  apply (bool_decide_unpack _). vm_compute. exact I.
Qed.

(** X7. [decorate] over any list of wrappers: the entry registered last
    under a key is the one the decorated service runs, on the host call for
    that key and the arguments; entries registered earlier under the same key
    are never reached. *)
Theorem decorate_runs_last_registration this (before after : list WrapperEntry)
  (entry : WrapperEntry) :
  wrappers this = before ++ entry :: after ->
  ~ In (name entry) (map name after) ->
  decorate this (name entry)
  = fun args => wrapper entry (callHost (service (context this)) (name entry) args) args.
Proof.
  intros Hwrappers Hlast. unfold decorate. cbv zeta.
  rewrite Hwrappers, fold_left_app. cbn [fold_left].
  rewrite wrappedService_fold by exact Hlast.
  rewrite ServiceMap_set_same. reflexivity.
Qed.

(** X8. Every construction wraps the enumeration it finds on [ts].  After two
    proxies were constructed one after the other, one call of
    [ts.getSupportedCodeFixes] calls the original enumeration, then the hook
    of the first template language service, then the hook of the second, and
    answers the host codes followed by the codes of the first and of the
    second. *)
Theorem getSupportedCodeFixes_wrapped_per_construction
  (routerA routerB : TemplateLanguageService.t W)
  (providerA providerB : @TemplateProvider W)
  (projectA projectB : @ProjectContext W) ts0 hA hB st :
  TemplateLanguageService.getSupportedCodeFixes routerA = Some hA ->
  TemplateLanguageService.getSupportedCodeFixes routerB = Some hB ->
  let tsA := snd (new_TSLanguageServiceProxy routerA providerA projectA ts0) in
  let tsB := snd (new_TSLanguageServiceProxy routerB providerB projectB tsA) in
  let original := ts.getSupportedCodeFixes ts0 st in
  let codesA := hA (world (snd original)) in
  let codesB := hB (snd codesA) in
  ts.getSupportedCodeFixes tsB st =
  (fst original ++ map StringOf (fst codesA) ++ map StringOf (fst codesB),
   mkState (snd codesB)
           (calls (snd original) ++ [TemplateRegistryCall; TemplateRegistryCall])).
Proof.
  intros HhookA HhookB tsA tsB original codesA codesB.
  subst tsB.
  rewrite (getSupportedCodeFixes_call routerB providerB projectB tsA hB st HhookB).
  cbv zeta. subst tsA.
  rewrite (getSupportedCodeFixes_call routerA providerA projectA ts0 hA st HhookA).
  cbv zeta. cbn [fst snd world calls].
  subst codesB codesA original. rewrite <- !app_assoc. reflexivity.
Qed.

End DecorationProperties.

(** * Further properties of the completion service *)

Section MakeCompletionInfoProperties.

Context {TemplatePart TemplatePartLocation : Type}.
Variable TemplatePart_start : TemplatePart -> Z.
Variable TemplatePart_end : TemplatePart -> Z.
Variable getScriptElementKind :
  CompletionItem.t -> TemplatePart -> TemplatePartLocation -> ScriptElementKind.

(** Entries with pairwise distinct names, none of them in the set the filter
    starts with, all pass the filter. *)
Lemma filterRepetitive_distinct (names : gset string) (entries : list CompletionEntry.t) :
  List.NoDup (map CompletionEntry.name entries) ->
  (forall entry, In entry entries -> CompletionEntry.name entry ∉ names) ->
  filterWith keepUnlessRepetitive names entries = entries.
Proof.
  revert names. induction entries as [|first rest IH]; intros names Hdistinct Hfresh;
    [reflexivity|].
  cbn. unfold keepUnlessRepetitive. case_bool_decide as Hseen.
  - destruct (Hfresh first (or_introl eq_refl) Hseen).
  - f_equal. cbn in Hdistinct. apply List.NoDup_cons_iff in Hdistinct.
    destruct Hdistinct as [Hfirst Hrest].
    apply IH; [exact Hrest|].
    intros entry Hin Helem. apply elem_of_union in Helem.
    destruct Helem as [Hsame | Hold].
    + apply elem_of_singleton in Hsame. apply Hfirst. rewrite <- Hsame.
      apply in_map. exact Hin.
    + exact (Hfresh entry (or_intror Hin) Hold).
Qed.

(** The filter keeps its entries in the order it was shown them. *)
Lemma filterRepetitive_sublist (names : gset string) (entries : list CompletionEntry.t) :
  sublist (filterWith keepUnlessRepetitive names entries) entries.
Proof.
  revert names. induction entries as [|first rest IH]; intros names; cbn.
  - constructor.
  - unfold keepUnlessRepetitive. case_bool_decide as Hseen.
    + apply sublist_cons. apply IH.
    + apply sublist_skip. apply IH.
Qed.

(** X9. When the items have pairwise distinct names, [makeCompletionInfo]
    drops none: the entries are the entries made from the items, one for
    each item, in the order of the items. *)
Theorem makeCompletionInfo_keeps_distinct_items (items : list CompletionItem.t)
  (part : TemplatePart) (location : TemplatePartLocation) :
  List.NoDup (map CompletionItem.name items) ->
  option_map CompletionInfo.entries
    (makeCompletionInfo TemplatePart_start TemplatePart_end getScriptElementKind
       (Some items) part location)
  = Some (map (makeCompletionEntry TemplatePart_start TemplatePart_end
                 getScriptElementKind part location) items).
Proof.
  intros Hdistinct. cbn. f_equal. apply filterRepetitive_distinct.
  - rewrite map_map. exact Hdistinct.
  - intros entry _. apply not_elem_of_empty.
Qed.

(** X10. The entries [makeCompletionInfo] returns keep the order of the
    items: they are the entries made from the items with some left out.  The
    entry of the first item is never left out, so a list with an item yields
    a list with an entry; an empty list of items yields a result without
    entries, and only undefined items yield an undefined result. *)
Theorem makeCompletionInfo_keeps_order_and_first_item
  (part : TemplatePart) (location : TemplatePartLocation) :
  let make := makeCompletionInfo TemplatePart_start TemplatePart_end getScriptElementKind in
  let entryOf :=
    makeCompletionEntry TemplatePart_start TemplatePart_end getScriptElementKind
      part location in
  make None part location = None
  /\ (forall items,
        exists info,
          make (Some items) part location = Some info
          /\ sublist (CompletionInfo.entries info) (map entryOf items)
          /\ (List.length (CompletionInfo.entries info) <= List.length items)%nat
          /\ head (CompletionInfo.entries info) = head (map entryOf items)).
Proof.
  intros make entryOf. split; [reflexivity|].
  intros items. eexists. split; [reflexivity|]. cbn [CompletionInfo.entries].
  split; [apply filterRepetitive_sublist|]. split.
  - rewrite <- (length_map entryOf items).
    apply sublist_length, filterRepetitive_sublist.
  - destruct items as [|item items]; [reflexivity|]. cbn.
    unfold keepUnlessRepetitive. case_bool_decide as Hseen; [|reflexivity].
    destruct (not_elem_of_empty (C := gset string) _ Hseen).
Qed.

(** X11. Every entry [makeCompletionInfo] returns is made from one of the
    items: it has the item's name, the kind [getScriptElementKind] gives the
    item, and a replacement span from the item's start to the item's end,
    where an item without start or end takes that of the part. *)
Theorem makeCompletionInfo_entry_spans_item_range (items : list CompletionItem.t)
  (part : TemplatePart) (location : TemplatePartLocation) info entry :
  makeCompletionInfo TemplatePart_start TemplatePart_end getScriptElementKind
    (Some items) part location = Some info ->
  In entry (CompletionInfo.entries info) ->
  exists item span,
    In item items
    /\ CompletionEntry.name entry = CompletionItem.name item
    /\ CompletionEntry.kind entry = getScriptElementKind item part location
    /\ CompletionEntry.replacementSpan entry = Some span
    /\ TextSpan.start span =
       match CompletionItem.start item with
       | Some start => start
       | None => TemplatePart_start part
       end
    /\ TextSpan.start span + TextSpan.length span =
       match CompletionItem.end_ item with
       | Some end_ => end_
       | None => TemplatePart_end part
       end.
Proof.
  intros Hmade Hin. cbn in Hmade. injection Hmade as <-.
  cbn [CompletionInfo.entries] in Hin.
  apply filterRepetitive_In in Hin. apply in_map_iff in Hin.
  destruct Hin as (item & <- & Hitem).
  exists item. eexists. split; [exact Hitem|].
  repeat split; cbn.
  destruct (CompletionItem.start item), (CompletionItem.end_ item); cbn; lia.
Qed.

End MakeCompletionInfoProperties.

Section GetCompletionsProperties.

Context {TemplatePart TemplatePartLocation TemplateOfPart : Type}.
Variable TemplatePart_type : TemplatePart -> TemplatePartType.t.
Variable TemplatePart_tagName : TemplatePart -> option string.
Variable TemplatePart_rawName : TemplatePart -> option string.
Variable TemplatePart_start : TemplatePart -> Z.
Variable TemplatePart_end : TemplatePart -> Z.
Variable TemplatePartLocation_type : TemplatePartLocation -> TemplatePartLocationType.t.
Variable getScriptElementKind :
  CompletionItem.t -> TemplatePart -> TemplatePartLocation -> ScriptElementKind.
Variable getComponentsForCompletion : string -> list CompletionItem.t.
Variable filterCompletionItems : list CompletionItem.t -> string -> list CompletionItem.t.
Variable LuposControlFlowTags : list CompletionItem.t.
Variable LuposComponentAttributes : list CompletionItem.t.
Variable isComponent : option string -> bool.
Variable getBindingCompletionItems :
  TemplatePart -> TemplatePartLocation -> TemplateOfPart -> list CompletionItem.t.
Variable getQueryAttributeCompletionItems :
  TemplatePart -> TemplatePartLocation -> list CompletionItem.t.
Variable getPropertyCompletionInfo :
  TemplatePart -> TemplatePartLocation -> TemplateOfPart -> list CompletionItem.t.
Variable getEventCompletionItems :
  TemplatePart -> TemplatePartLocation -> TemplateOfPart -> list CompletionItem.t.

Local Abbreviation completionsAt :=
  (getCompletions TemplatePart_type TemplatePart_tagName TemplatePart_rawName
     TemplatePart_start TemplatePart_end TemplatePartLocation_type
     getScriptElementKind getComponentsForCompletion filterCompletionItems
     LuposControlFlowTags LuposComponentAttributes isComponent
     getBindingCompletionItems getQueryAttributeCompletionItems
     getPropertyCompletionInfo getEventCompletionItems).

(** Every result of [getCompletions] is built by [makeCompletionInfo] from
    some list of items. *)
Lemma getCompletions_made part location template info :
  completionsAt part location template = Some info ->
  exists items,
    makeCompletionInfo TemplatePart_start TemplatePart_end getScriptElementKind
      (Some items) part location = Some info.
Proof.
  unfold getCompletions, makeInfo.
  destruct (TemplatePart_type part); try (intros Hmade; eexists; exact Hmade);
    try discriminate.
  destruct (isComponent _ && _); [|discriminate].
  destruct (find _ LuposComponentAttributes) as [item|]; [|discriminate].
  intros Hmade. eexists. exact Hmade.
Qed.

(** X12. Whatever the part, the location and the collectors, a completion
    result [getCompletions] returns is never a global, member or
    new-identifier completion; its entries have pairwise distinct names; and
    every entry sorts and inserts by its name and has a replacement span. *)
Theorem getCompletions_result_is_well_formed part location template info :
  getCompletions TemplatePart_type TemplatePart_tagName TemplatePart_rawName
    TemplatePart_start TemplatePart_end TemplatePartLocation_type
    getScriptElementKind getComponentsForCompletion filterCompletionItems
    LuposControlFlowTags LuposComponentAttributes isComponent
    getBindingCompletionItems getQueryAttributeCompletionItems
    getPropertyCompletionInfo getEventCompletionItems part location template
  = Some info ->
  CompletionInfo.isGlobalCompletion info = false
  /\ CompletionInfo.isMemberCompletion info = false
  /\ CompletionInfo.isNewIdentifierLocation info = false
  /\ List.NoDup (map CompletionEntry.name (CompletionInfo.entries info))
  /\ (forall entry,
        In entry (CompletionInfo.entries info) ->
        CompletionEntry.sortText entry = CompletionEntry.name entry
        /\ CompletionEntry.insertText entry = Some (CompletionEntry.name entry)
        /\ is_Some (CompletionEntry.replacementSpan entry)).
Proof.
  intros Hresult. apply getCompletions_made in Hresult.
  destruct Hresult as (items & Hmade). cbn in Hmade. injection Hmade as <-.
  cbn [CompletionInfo.isGlobalCompletion CompletionInfo.isMemberCompletion
       CompletionInfo.isNewIdentifierLocation CompletionInfo.entries].
  split; [reflexivity|]. split; [reflexivity|]. split; [reflexivity|].
  split; [apply filterRepetitive_NoDup|].
  intros entry Hin. apply filterRepetitive_In in Hin. apply in_map_iff in Hin.
  destruct Hin as (item & <- & _).
  split; [reflexivity|]. split; [reflexivity|]. eexists. reflexivity.
Qed.

(** X13. When [getCompletions] answers.  For a tag, a binding, a query
    attribute, a property or an event it always returns a result, with or
    without entries.  For an unslotted attribute it returns a result exactly
    when the tag is a component, the location is the attribute value and the
    component attributes hold an item named like the attribute; the result
    then has a single entry, made from the first such item.  For every other
    part it returns nothing. *)
Theorem getCompletions_answers part location template :
  match TemplatePart_type part with
  | TemplatePartType.Component | TemplatePartType.DynamicComponent
  | TemplatePartType.FlowControl | TemplatePartType.SlotTag
  | TemplatePartType.NormalStartTag | TemplatePartType.Binding
  | TemplatePartType.QueryAttribute | TemplatePartType.Property
  | TemplatePartType.Event =>
      is_Some (completionsAt part location template)
  | TemplatePartType.UnSlottedAttribute =>
      (is_Some (completionsAt part location template) <->
       isComponent (TemplatePart_tagName part) = true
       /\ TemplatePartLocation_type location = TemplatePartLocationType.AttrValue
       /\ exists item, In item LuposComponentAttributes
                       /\ Some (CompletionItem.name item) = TemplatePart_rawName part)
      /\ (forall info,
            completionsAt part location template = Some info ->
            exists item,
              find (fun item =>
                      bool_decide (Some (CompletionItem.name item)
                                   = TemplatePart_rawName part))
                   LuposComponentAttributes = Some item
              /\ CompletionInfo.entries info =
                 [makeCompletionEntry TemplatePart_start TemplatePart_end
                    getScriptElementKind part location item]
              /\ Some (CompletionEntry.name
                         (makeCompletionEntry TemplatePart_start TemplatePart_end
                            getScriptElementKind part location item))
                 = TemplatePart_rawName part)
  | TemplatePartType.other _ => completionsAt part location template = None
  end.
Proof.
  unfold getCompletions, makeInfo.
  destruct (TemplatePart_type part); try (eexists; reflexivity).
  split.
  - split.
    + intros [info Hinfo].
      destruct (isComponent (TemplatePart_tagName part)) eqn:Hcomponent;
        [|discriminate Hinfo].
      case_bool_decide as Hlocation; [|discriminate Hinfo]. cbn [andb] in Hinfo.
      destruct (find _ LuposComponentAttributes) as [item|] eqn:Hfind;
        [|discriminate Hinfo].
      apply find_some in Hfind. destruct Hfind as [Hin Hname].
      apply bool_decide_eq_true in Hname. eauto.
    + intros (Hcomponent & Hlocation & item & Hin & Hname).
      rewrite Hcomponent, bool_decide_eq_true_2 by exact Hlocation. cbn [andb].
      destruct (find _ LuposComponentAttributes) as [found|] eqn:Hfind.
      * eexists. reflexivity.
      * apply (find_none _ _ Hfind) in Hin.
        apply bool_decide_eq_false in Hin. contradiction.
  - intros info Hinfo.
    destruct (isComponent _ && _); [|discriminate Hinfo].
    destruct (find _ LuposComponentAttributes) as [item|] eqn:Hfind;
      [|discriminate Hinfo].
    exists item. split; [reflexivity|].
    cbn in Hinfo. injection Hinfo as <-. cbn. split; [reflexivity|].
    apply find_some in Hfind. destruct Hfind as [_ Hname].
    apply bool_decide_eq_true in Hname. exact Hname.
Qed.

End GetCompletionsProperties.

(** * Properties of the binding analyzer *)




Section BindingsProperties.

Context {TsType : Type}.
Variable KnownInternalBindingNamesMap : gmap string string.
Variable forEachChild : SourceFile.t -> list Node.t.

Implicit Types (helper : @Helper TsType) (node : Node.t).

(** The test of the walk, spelled out. *)
Lemma isLuposBindingClass_true helper node :
  isLuposBindingClass KnownInternalBindingNamesMap helper node = true <->
  Node.kind node = Node.ClassDeclaration
  /\ exists text,
       Node.name node = Some text
       /\ (isDerivedOf helper node "Binding" "@pucelle/lupos.js" = true
           \/ is_Some (KnownInternalBindingNamesMap !! text)).
Proof.
  unfold isLuposBindingClass.
  destruct (Node.kind node), (Node.name node) as [text|]; split;
    try discriminate;
    try (intros (Hkind & text' & Hname & _); discriminate).
  - intros Htest. split; [reflexivity|]. exists text. split; [reflexivity|].
    apply Bool.orb_true_iff in Htest. destruct Htest as [Hderived | Hknown].
    + left. exact Hderived.
    + right. apply bool_decide_eq_true in Hknown. exact Hknown.
  - intros (_ & text' & Hname & Hreason). injection Hname as <-.
    apply Bool.orb_true_iff. destruct Hreason as [Hderived | Hknown].
    + left. exact Hderived.
    + right. apply bool_decide_eq_true. exact Hknown.
Qed.


(** The walk over a list of children, from any bindings gathered so far. *)
Lemma analyzeLuposBindings_walk helper (children : list Node.t)
  (gathered : list (LuposBinding.t TsType)) :
  exists found,
    fold_left
      (fun (bindings : option (list (LuposBinding.t TsType))) node =>
         match bindings with
         | None => None
         | Some bindings =>
             if isLuposBindingClass KnownInternalBindingNamesMap helper node
             then match createLuposBinding KnownInternalBindingNamesMap node helper with
                  | Some binding => Some (bindings ++ [binding])
                  | None => None
                  end
             else Some bindings
         end)
      children (Some gathered)
    = Some (gathered ++ found)
    /\ map LuposBinding.declaration found
       = List.filter (isLuposBindingClass KnownInternalBindingNamesMap helper) children
    /\ Forall (fun binding =>
                 createLuposBinding KnownInternalBindingNamesMap
                   (LuposBinding.declaration binding) helper
                 = Some binding) found.
Proof.
  revert gathered. induction children as [|node children IH]; intros gathered.
  - exists []. rewrite app_nil_r. repeat split. constructor.
  - cbn [fold_left List.filter].
    destruct (isLuposBindingClass KnownInternalBindingNamesMap helper node) eqn:Htest.
    + apply isLuposBindingClass_true in Htest.
      destruct Htest as (_ & text & Hname & _).
      destruct (createLuposBinding KnownInternalBindingNamesMap node helper)
        as [binding|] eqn:Hcreate.
      * destruct (IH (gathered ++ [binding])) as (found & Hfold & Hdecl & Hall).
        exists (binding :: found). rewrite Hfold, <- app_assoc. split; [reflexivity|].
        assert (Hnode : LuposBinding.declaration binding = node).
        { unfold createLuposBinding in Hcreate. rewrite Hname in Hcreate.
          injection Hcreate as <-. reflexivity. }
        split.
        -- cbn. rewrite Hnode, Hdecl. reflexivity.
        -- constructor; [rewrite Hnode; exact Hcreate | exact Hall].
      * unfold createLuposBinding in Hcreate. rewrite Hname in Hcreate.
        discriminate Hcreate.
    + exact (IH gathered).
Qed.

(** X15. [analyzeLuposBindings] never fails: every class it hands to
    [createLuposBinding] has a name.  It reports, in source order, one binding
    for each child of the source file that is a class declaration with a name
    and either derives from [Binding] of [@pucelle/lupos.js] or is named like
    a known internal binding class, and none for any other child; each
    binding is what [createLuposBinding] makes of its declaration. *)
Theorem analyzeLuposBindings_reports_root_binding_classes
  (sourceFile : SourceFile.t) helper :
  exists bindings,
    analyzeLuposBindings KnownInternalBindingNamesMap forEachChild sourceFile helper
    = Some bindings
    /\ map LuposBinding.declaration bindings
       = List.filter (isLuposBindingClass KnownInternalBindingNamesMap helper)
                     (forEachChild sourceFile)
    /\ (forall node,
          In node (map LuposBinding.declaration bindings) <->
          In node (forEachChild sourceFile)
          /\ Node.kind node = Node.ClassDeclaration
          /\ exists text,
               Node.name node = Some text
               /\ (isDerivedOf helper node "Binding" "@pucelle/lupos.js" = true
                   \/ is_Some (KnownInternalBindingNamesMap !! text)))
    /\ Forall (fun binding =>
                 createLuposBinding KnownInternalBindingNamesMap
                   (LuposBinding.declaration binding) helper
                 = Some binding) bindings.
Proof.
  destruct (analyzeLuposBindings_walk helper (forEachChild sourceFile) [])
    as (found & Hfold & Hdecl & Hall).
  exists found. split; [exact Hfold|]. split; [exact Hdecl|]. split; [|exact Hall].
  intros node. rewrite Hdecl, filter_In, isLuposBindingClass_true. reflexivity.
Qed.

End BindingsProperties.

(** * The further properties at work *)

(** X1 on [a.ts]: the closing tag at offset 10, inside the first Template. *)
Lemma untranslated_position_operations_replace_witness :
  Fixture2.composite Key.getJsxClosingTagAtPosition (("a.ts"%string, 10), [])
    Fixture.initial
  = (Some (JsNumber 3),
     mkState 1%nat [TemplateCall "getJsxClosingTagAtPosition" Fixture.first [3]]).
Proof.
  exact (proj2 (proj2 (proj2
           (proj2 (untranslated_position_operations_replace Fixture2.router
                     Fixture.provider Fixture.context Fixture.hostTs
                     "a.ts" 10 "" JsUndefined [] Fixture.initial)
                  Fixture.first eq_refl)))
           (fun _ temOffset w => (Some (JsNumber temOffset), S w)) eq_refl).
Defined.

(** X2 on [a.ts]: signature help at offset 45, inside the second Template. *)
Lemma getSignatureHelpItems_replaces_witness :
  Fixture2.composite Key.getSignatureHelpItems (("a.ts"%string, 45, JsUndefined), [])
    Fixture.initial
  = (Some {| SignatureHelpItems.items := JsString "on(name, handler)";
             SignatureHelpItems.applicableSpan :=
               Some {| TextSpan.start := 44; TextSpan.length := 6 |};
             SignatureHelpItems.selectedItemIndex := 0;
             SignatureHelpItems.argumentIndex := 1;
             SignatureHelpItems.argumentCount := 2 |},
     mkState 1%nat [TemplateCall "getSignatureHelpItemsAtPosition" Fixture.second [2]]).
Proof.
  exact (proj2 (proj2 (getSignatureHelpItems_replaces Fixture2.router Fixture.provider
                         Fixture.context Fixture.hostTs "a.ts" 45 JsUndefined []
                         Fixture.initial))
               (fun _ _ _ w => (Some Fixture2.signatureItems, S w)) Fixture.second
               eq_refl eq_refl).
Defined.


(** X4 on [b.ts], a document without Templates. *)
Lemma document_without_templates_is_served_by_host_witness :
  Fixture.composite Key.getSemanticDiagnostics ("b.ts"%string, []) Fixture.initial
  = ([Fixture.hostDiagnostic], mkState 1%nat [HostCall Key.getSemanticDiagnostics]).
Proof.
  apply (document_without_templates_is_served_by_host Fixture.router Fixture.provider
           Fixture.context Fixture.hostTs Key.getSemanticDiagnostics
           ("b.ts"%string, []) Fixture.initial).
  intros fileName Hfile. injection Hfile as <-. reflexivity.
Defined.

(** X5 on the service without hooks. *)
Lemma hookless_template_service_changes_nothing_witness :
  wrappers (fst (new_TSLanguageServiceProxy Fixture2.hookless Fixture.provider
                   Fixture.context Fixture.hostTs)) = []
  /\ compositeService Fixture2.hookless Fixture.provider Fixture.context Fixture.hostTs
       Key.getQuickInfoAtPosition
     = callHost Fixture.host Key.getQuickInfoAtPosition.
Proof.
  destruct (hookless_template_service_changes_nothing Fixture2.hookless
              Fixture.provider Fixture.context Fixture.hostTs
              (fun k => match k with Key.other _ => eq_refl | _ => eq_refl end)
              eq_refl)
    as (Hnew & Hsame).
  split; [exact (f_equal (fun built => wrappers (fst built)) Hnew)|].
  exact (Hsame Key.getQuickInfoAtPosition).
Defined.

(** X7 on a proxy with two wrappers under [getJsxClosingTagAtPosition]. *)
Lemma decorate_runs_last_registration_witness :
  decorate Fixture2.registeredTwice Key.getJsxClosingTagAtPosition
    (("a.ts"%string, 10), []) Fixture.initial
  = (Some (JsString "later"), mkState 1%nat [HostCall Key.getJsxClosingTagAtPosition]).
Proof.
  exact (f_equal (fun f => f (("a.ts"%string, 10), []) Fixture.initial)
           (decorate_runs_last_registration Fixture2.registeredTwice
              [Fixture2.earlier] [] Fixture2.later eq_refl (fun Hin => Hin))).
Defined.

(** X8 on two proxies constructed over one [ts]. *)
Lemma getSupportedCodeFixes_wrapped_per_construction_witness :
  fst (ts.getSupportedCodeFixes
         (snd (new_TSLanguageServiceProxy Fixture.router Fixture.provider Fixture.context
                 (snd (new_TSLanguageServiceProxy Fixture.router Fixture.provider
                         Fixture.context Fixture.hostTs))))
         Fixture.initial)
  = ["1003"; "2304"; "9001"; "9002"; "9001"; "9002"]%string.
Proof.
  exact (f_equal fst
           (getSupportedCodeFixes_wrapped_per_construction Fixture.router Fixture.router
              Fixture.provider Fixture.provider Fixture.context Fixture.context
              Fixture.hostTs (fun w => ([9001; 9002], S w)) (fun w => ([9001; 9002], S w))
              Fixture.initial eq_refl eq_refl)).
Defined.

(** X9 on two items of different names. *)
Lemma makeCompletionInfo_keeps_distinct_items_witness :
  option_map (fun info => map CompletionEntry.name (CompletionInfo.entries info))
    (makeCompletionInfo Fixture.partStart Fixture.partEnd Fixture.scriptElementKind
       (Some Fixture2.distinctItems) (20, 25) tt)
  = Some ["click"; "change"]%string.
Proof.
  assert (Hdistinct : List.NoDup (map CompletionItem.name Fixture2.distinctItems)).
  { apply NoDup_ListNoDup, (bool_decide_unpack _). vm_compute. exact I. }
  exact (f_equal (option_map (map CompletionEntry.name))
           (makeCompletionInfo_keeps_distinct_items Fixture.partStart Fixture.partEnd
              Fixture.scriptElementKind Fixture2.distinctItems (20, 25) tt Hdistinct)).
Defined.

(** X11 on the items with a repeated name: the entry [click] spans [3,8),
    the range of the first item of that name. *)
Lemma makeCompletionInfo_entry_spans_item_range_witness :
  exists item span,
    In item Fixture.items
    /\ CompletionItem.name item = "click"%string
    /\ TextSpan.start span = 3
    /\ TextSpan.start span + TextSpan.length span = 8.
Proof.
  destruct (makeCompletionInfo_entry_spans_item_range Fixture.partStart Fixture.partEnd
              Fixture.scriptElementKind Fixture.items (20, 25) tt
              {| CompletionInfo.isGlobalCompletion := false;
                 CompletionInfo.isMemberCompletion := false;
                 CompletionInfo.isNewIdentifierLocation := false;
                 CompletionInfo.entries :=
                   [ makeCompletionEntry Fixture.partStart Fixture.partEnd
                       Fixture.scriptElementKind (20, 25) tt
                       {| CompletionItem.name := "click";
                          CompletionItem.description := "component event";
                          CompletionItem.start := Some 3; CompletionItem.end_ := Some 8;
                          CompletionItem.order := None; CompletionItem.kind := None |};
                     makeCompletionEntry Fixture.partStart Fixture.partEnd
                       Fixture.scriptElementKind (20, 25) tt
                       {| CompletionItem.name := "change"; CompletionItem.description := "";
                          CompletionItem.start := None; CompletionItem.end_ := None;
                          CompletionItem.order := None; CompletionItem.kind := None |} ] |}
              (makeCompletionEntry Fixture.partStart Fixture.partEnd
                 Fixture.scriptElementKind (20, 25) tt
                 {| CompletionItem.name := "click";
                    CompletionItem.description := "component event";
                    CompletionItem.start := Some 3; CompletionItem.end_ := Some 8;
                    CompletionItem.order := None; CompletionItem.kind := None |})
              eq_refl (or_introl eq_refl))
    as (item & span & Hin & Hname & _ & Hspan & Hstart & Hend).
  exists item, span. split; [exact Hin|]. split; [symmetry; exact Hname|].
  cbn in Hspan. injection Hspan as <-. cbn in *. split; reflexivity.
Defined.

(** X12 on an event part: the collector answers two items named [click] and
    one named [change]; the result has two entries. *)
Lemma getCompletions_result_is_well_formed_witness :
  exists info,
    Fixture2.getCompletions Fixture2.eventPart TemplatePartLocationType.Name = Some info
    /\ map CompletionEntry.name (CompletionInfo.entries info) = ["click"; "change"]%string
    /\ List.NoDup (map CompletionEntry.name (CompletionInfo.entries info)).
Proof.
  eexists. split; [reflexivity|]. split; [reflexivity|].
  exact (proj1 (proj2 (proj2 (proj2
           (getCompletions_result_is_well_formed Fixture2.type Fixture2.tagName
              Fixture2.rawName Fixture2.start Fixture2.end_ (fun location => location)
              (fun item _ _ => default "property"%string (CompletionItem.kind item))
              (fun _ => []) (fun items _ => items) [] Fixture2.distinctItems
              (fun tagName => bool_decide (tagName = Some "Icon"%string))
              (fun _ _ _ => Fixture2.distinctItems) (fun _ _ => []) (fun _ _ _ => [])
              (fun _ _ _ => Fixture.items)
              Fixture2.eventPart TemplatePartLocationType.Name tt _ eq_refl))))).
Defined.
